(** * Restaurant Trends ETL: a shallow embedding and its verified properties

    The development follows the layout of the repository:

    - [Py]       the values the program handles (cells of a table, Python's
                 [float], [int], [str] on them) and the exceptions it raises;
    - [Frame]    the table operations of the data-frame library that the
                 program calls ([df[cols]], [dropna], [duplicated], ...);
    - [Parsing]  [etl/utils/parsing.py];
    - [Mapping]  [etl/utils/mapping.py];
    - [Cleaning] [etl/utils/cleaning.py];
    - [Loader]   [etl/loaders/postgres_loader.py];
    - [Etl]      [etl/etl_restaurant_trends.py]: the splitter and the
                 database load.

    [Spec] states, in the vocabulary of the model, what the specification
    says; [Samples] holds the data of the examples; the modules whose names
    end in [Facts] hold the proofs, one module per part of the program.

    Conventions.  Strings are ASCII and paths are POSIX paths.  Python
    integers are [Z].  A Python [float] is an IEEE-754 binary64 number, kept
    as sign, integral significand and binary exponent; conversions round to
    nearest, ties to even.  A function that can raise returns a [result].
    The cleaning stage threads its statistics object and the log through a
    state monad; the loader threads the database connection.  Logging is
    modelled where the program's diagnostics are part of what it promises
    (the cleaning stage); elsewhere a logger call changes no value and is
    left out. *)

From Stdlib Require Import ZArith List String Ascii Bool Lia DecimalString.
Import ListNotations.

Local Open Scope string_scope.
Local Open Scope list_scope.
Local Open Scope Z_scope.

(** String concatenation, written apart from list concatenation. *)
Infix "+++" := String.append (right associativity, at level 60).

#[local] Set Implicit Arguments.

(* ------------------------------------------------------------------------- *)
(** * Python values *)

Module Py.

(** The exceptions that the modelled code raises or lets through. *)
Inductive exn : Type :=
| ValueError (msg : string)
| TypeError (msg : string)
| KeyError (missing : list string)
| OverflowError (msg : string)
| DatabaseError (msg : string).

Inductive result (A : Type) : Type :=
| Ok (a : A)
| Raise (e : exn).

Arguments Ok {A} a.
Arguments Raise {A} e.

Definition bind {A B : Type} (r : result A) (k : A -> result B) : result B :=
  match r with
  | Ok a => k a
  | Raise e => Raise e
  end.

Definition is_ok {A : Type} (r : result A) : bool :=
  match r with Ok _ => true | Raise _ => false end.

(** [try: r except (ValueError, TypeError): handler] *)
Definition except_value_or_type {A : Type} (r : result A) (handler : result A)
  : result A :=
  match r with
  | Raise (ValueError _) => handler
  | Raise (TypeError _) => handler
  | other => other
  end.

(** ** binary64 floats *)

(** [FFin neg m e] is the number [(-1)^neg * m * 2^e] with [0 <= m < 2^53]
    and [-1074 <= e <= 971]. *)
Inductive pyfloat : Type :=
| FNan
| FInf (neg : bool)
| FFin (neg : bool) (m : Z) (e : Z).

(** Nearest integer to [n / d], ties to the even one ([0 <= n], [0 < d]). *)
Definition round_half_even (n d : Z) : Z :=
  let q := n / d in
  let r := n mod d in
  match 2 * r ?= d with
  | Lt => q
  | Gt => q + 1
  | Eq => if Z.even q then q else q + 1
  end.

(** Exponent of the last place of the double nearest to [n / d], for
    [0 < n], [0 < d]: 52 below the binary order of magnitude of [n / d],
    never below the subnormal exponent. *)
Definition ulp_exponent (n d : Z) : Z :=
  let k := Z.log2 n - Z.log2 d in
  let magnitude :=
    if 0 <=? k
    then (if d * 2 ^ k <=? n then k else k - 1)
    else (if d <=? n * 2 ^ (- k) then k else k - 1) in
  Z.max (magnitude - 52) (-1074).

(** The double nearest to [(-1)^neg * n / d]. *)
Definition float_of_ratio (neg : bool) (n d : Z) : pyfloat :=
  if n =? 0 then FFin neg 0 0
  else
    let e := ulp_exponent n d in
    let m := if 0 <=? e
             then round_half_even n (d * 2 ^ e)
             else round_half_even (n * 2 ^ (- e)) d in
    let '(m, e) := if m =? 2 ^ 53 then (2 ^ 52, e + 1) else (m, e) in
    if 971 <? e then FInf neg
    else if m =? 0 then FFin neg 0 0
    else FFin neg m e.

(** [float(z)] for a Python integer. *)
Definition float_of_int (z : Z) : result pyfloat :=
  match float_of_ratio (z <? 0) (Z.abs z) 1 with
  | FInf _ => Raise (OverflowError "int too large to convert to float")
  | f => Ok f
  end.

(** [int(x)] for a float: truncation toward zero. *)
Definition int_of_float (f : pyfloat) : result Z :=
  match f with
  | FNan => Raise (ValueError "cannot convert float NaN to integer")
  | FInf _ => Raise (OverflowError "cannot convert float infinity to integer")
  | FFin neg m e =>
      let a := if 0 <=? e then m * 2 ^ e else m / 2 ^ (- e) in
      Ok (if neg then - a else a)
  end.

(** Float arithmetic used by the quality metrics. *)
Definition float_div_int (a b : Z) : pyfloat :=
  float_of_ratio (xorb (a <? 0) (b <? 0)) (Z.abs a) (Z.abs b).

Definition float_mul_int (f : pyfloat) (k : Z) : pyfloat :=
  match f with
  | FNan => FNan
  | FInf neg => if k =? 0 then FNan else FInf (xorb neg (k <? 0))
  | FFin neg m e =>
      let n := m * Z.abs k in
      if 0 <=? e then float_of_ratio (xorb neg (k <? 0)) (n * 2 ^ e) 1
      else float_of_ratio (xorb neg (k <? 0)) n (2 ^ (- e))
  end.

(** [f > k] *)
Definition float_gt_int (f : pyfloat) (k : Z) : bool :=
  match f with
  | FNan => false
  | FInf neg => negb neg
  | FFin neg m e =>
      let s := if neg then - m else m in
      if 0 <=? e then k <? s * 2 ^ e else k * 2 ^ (- e) <? s
  end.

(** ** Characters and strings *)

Definition code (c : ascii) : Z := Z.of_nat (nat_of_ascii c).

Definition is_digit (c : ascii) : bool := (48 <=? code c) && (code c <=? 57).

Definition digit_value (c : ascii) : Z := code c - 48.

(** Characters that [str.strip()] removes. *)
Definition is_space (c : ascii) : bool :=
  ((9 <=? code c) && (code c <=? 13)) || ((28 <=? code c) && (code c <=? 32)).

(** Characters that [float()] skips around a number. *)
Definition is_c_space (c : ascii) : bool :=
  ((9 <=? code c) && (code c <=? 13)) || (code c =? 32).

Definition lower (c : ascii) : ascii :=
  if (65 <=? code c) && (code c <=? 90)
  then ascii_of_nat (nat_of_ascii c + 32)
  else c.

Fixpoint drop_while (p : ascii -> bool) (l : list ascii) : list ascii :=
  match l with
  | [] => []
  | c :: l' => if p c then drop_while p l' else l
  end.

Definition strip_with (p : ascii -> bool) (l : list ascii) : list ascii :=
  rev (drop_while p (rev (drop_while p l))).

(** [s.strip()] *)
Definition strip (s : string) : string :=
  string_of_list_ascii (strip_with is_space (list_ascii_of_string s)).

(** [str(z)] for an integer. *)
Definition str_of_int (z : Z) : string := NilZero.string_of_int (Z.to_int z).

Definition str_of_nat (n : nat) : string := str_of_int (Z.of_nat n).

Fixpoint join (sep : string) (l : list string) : string :=
  match l with
  | [] => EmptyString
  | [s] => s
  | s :: l' => s +++ sep +++ join sep l'
  end.

(** How a list of column labels prints inside an f-string: quoted and
    bracketed (the labels here hold no quote or escape). *)
Definition repr_labels (l : list string) : string :=
  "[" +++ join ", " (map (fun c => "'" +++ c +++ "'") l) +++ "]".

(** ** [float(s)] for a string *)

(** Underscores may only stand between two digits; they are removed before
    the number is read. *)
Fixpoint remove_underscores (prev : ascii) (l : list ascii)
  : option (list ascii) :=
  match l with
  | [] => if Ascii.eqb prev "_" then None else Some []
  | c :: l' =>
      if Ascii.eqb c "_"
      then (if is_digit prev then remove_underscores c l' else None)
      else if Ascii.eqb prev "_" && negb (is_digit c) then None
      else option_map (cons c) (remove_underscores c l')
  end.

Fixpoint span_digits (l : list ascii) : list ascii * list ascii :=
  match l with
  | c :: l' =>
      if is_digit c
      then let '(ds, rest) := span_digits l' in (c :: ds, rest)
      else ([], l)
  | [] => ([], [])
  end.

Definition digits_value (ds : list ascii) : Z :=
  fold_left (fun acc c => 10 * acc + digit_value c) ds 0.

Definition read_sign (l : list ascii) : bool * list ascii :=
  match l with
  | "-"%char :: l' => (true, l')
  | "+"%char :: l' => (false, l')
  | _ => (false, l)
  end.

(** The exponent part: nothing, or [e], an optional sign and digits. *)
Definition read_exponent (l : list ascii) : option Z :=
  match l with
  | [] => Some 0
  | c :: l' =>
      if Ascii.eqb (lower c) "e"
      then
        let '(neg, l'') := read_sign l' in
        match span_digits l'' with
        | ((_ :: _) as ds, []) =>
            Some (if neg then - digits_value ds else digits_value ds)
        | _ => None
        end
      else None
  end.

(** A decimal numeral, without its sign: digits, an optional point and
    digits, an optional exponent; at least one digit before the exponent.
    The result is [(n, k)] for the number [n * 10^k]. *)
Definition read_decimal (l : list ascii) : option (Z * Z) :=
  let '(int_part, rest) := span_digits l in
  let '(frac_part, rest) :=
    match rest with
    | "."%char :: rest' => span_digits rest'
    | _ => ([], rest)
    end in
  match int_part ++ frac_part with
  | [] => None
  | ds =>
      match read_exponent rest with
      | Some x => Some (digits_value ds, x - Z.of_nat (List.length frac_part))
      | None => None
      end
  end.

Definition float_of_decimal (neg : bool) (n k : Z) : pyfloat :=
  if 0 <=? k then float_of_ratio neg (n * 10 ^ k) 1
  else float_of_ratio neg n (10 ^ (- k)).

Definition float_of_string (s : string) : result pyfloat :=
  let invalid := Raise (ValueError "could not convert string to float") in
  let chars := list_ascii_of_string s in
  match (if existsb (Ascii.eqb "_") chars
         then remove_underscores "000" chars
         else Some chars) with
  | None => invalid
  | Some chars =>
      let '(neg, body) := read_sign (strip_with is_c_space chars) in
      let name := string_of_list_ascii (map lower body) in
      if String.eqb name "inf" || String.eqb name "infinity" then Ok (FInf neg)
      else if String.eqb name "nan" then Ok FNan
      else
        match read_decimal body with
        | Some (n, k) => Ok (float_of_decimal neg n k)
        | None => invalid
        end
  end.

(** ** Cells *)

(** The values a table cell can hold: Python's [None], text, an integer or a
    float.  A blank spreadsheet cell is read as the float NaN. *)
Inductive cell : Type :=
| CNone
| CStr (s : string)
| CInt (z : Z)
| CFloat (f : pyfloat).

(** [pd.isna(value)] *)
Definition isna (v : cell) : bool :=
  match v with
  | CNone => true
  | CFloat FNan => true
  | _ => false
  end.

(** [value is None] *)
Definition is_none (v : cell) : bool :=
  match v with CNone => true | _ => false end.

(** [value == ''] *)
Definition eq_empty_str (v : cell) : bool :=
  match v with CStr EmptyString => true | _ => false end.

(** [float(value)] *)
Definition py_float (v : cell) : result pyfloat :=
  match v with
  | CNone => Raise (TypeError "float() argument must be a string or a real number")
  | CStr s => float_of_string s
  | CInt z => float_of_int z
  | CFloat f => Ok f
  end.

(** How the runtime prints and rounds floats ([str(x)], [format(x, '.1f')],
    [round(x, 2)]) is outside the repository; the program only passes the
    results on, so they are an interface of the development. *)
Class FloatFormat : Type := {
  float_repr : pyfloat -> string;
  float_format_1f : pyfloat -> string;
  float_round_2 : pyfloat -> pyfloat
}.

(** [str(value)] *)
Definition py_str `{FloatFormat} (v : cell) : string :=
  match v with
  | CNone => "None"
  | CStr s => s
  | CInt z => str_of_int z
  | CFloat f => float_repr f
  end.

(** ** Equality of cells as keys

    Hashing a column ([duplicated], [unique], [nunique]) and comparing keys
    in the store identify numbers by value (1 and 1.0 are the same key, as
    are 0.0 and -0.0) and all NaNs with each other; text is compared
    exactly.  [cell_key] maps a cell to a canonical form: a nonzero number
    is written [odd * 2^e]. *)
Inductive key : Type :=
| KNone
| KNan
| KStr (s : string)
| KInf (neg : bool)
| KZero
| KNum (neg : bool) (odd : positive) (e : Z).

Fixpoint odd_part (p : positive) (e : Z) : positive * Z :=
  match p with
  | xO p' => odd_part p' (e + 1)
  | _ => (p, e)
  end.

Definition num_key (neg : bool) (m e : Z) : key :=
  match m with
  | Zpos p => let '(q, e') := odd_part p e in KNum neg q e'
  | _ => KZero
  end.

Definition cell_key (v : cell) : key :=
  match v with
  | CNone => KNone
  | CStr s => KStr s
  | CInt z => num_key (z <? 0) (Z.abs z) 0
  | CFloat FNan => KNan
  | CFloat (FInf neg) => KInf neg
  | CFloat (FFin neg m e) => num_key neg m e
  end.

Definition key_eq_dec (a b : key) : {a = b} + {a <> b}.
Proof.
  decide equality;
    first [ apply string_dec | apply bool_dec | apply Z.eq_dec
          | apply Pos.eq_dec ].
Defined.

Definition key_eqb (a b : key) : bool :=
  if key_eq_dec a b then true else false.

Definition key_mem (k : key) (l : list key) : bool := existsb (key_eqb k) l.

Definition same_key (a b : cell) : bool := key_eqb (cell_key a) (cell_key b).

End Py.

(* ------------------------------------------------------------------------- *)
(** * Tables *)

Module Frame.
Import Py.

(** A table: its column labels and its rows, each row holding one cell per
    column, in column order.  Row labels are not modelled: the program never
    reads them. *)
Record DataFrame : Type := {
  columns : list string;
  rows : list (list cell)
}.

(** Tables as the spreadsheet reader builds them: distinct column labels and
    rows as wide as the header. *)
Definition wf (df : DataFrame) : Prop :=
  NoDup (columns df) /\
  Forall (fun r => List.length r = List.length (columns df)) (rows df).

(** [len(df)] *)
Definition len (df : DataFrame) : nat := List.length (rows df).

(** [df.empty]: no rows or no columns. *)
Definition empty (df : DataFrame) : bool :=
  (Nat.eqb (len df) 0) || (Nat.eqb (List.length (columns df)) 0).

Fixpoint index_of (c : string) (cols : list string) : option nat :=
  match cols with
  | [] => None
  | c' :: rest =>
      if String.eqb c c' then Some 0%nat
      else option_map S (index_of c rest)
  end.

(** [c in df.columns] *)
Definition has_column (c : string) (df : DataFrame) : bool :=
  match index_of c (columns df) with Some _ => true | None => false end.

Definition cell_at (i : nat) (r : list cell) : cell := nth i r CNone.

(** The values of column [c], when the table has it. *)
Definition find_column (c : string) (df : DataFrame) : option (list cell) :=
  match index_of c (columns df) with
  | Some i => Some (map (cell_at i) (rows df))
  | None => None
  end.

(** [df[c]] *)
Definition column (c : string) (df : DataFrame) : result (list cell) :=
  match find_column c df with
  | Some col => Ok col
  | None => Raise (KeyError [c])
  end.

Fixpoint indices_of (cols : list string) (header : list string)
  : option (list nat) :=
  match cols with
  | [] => Some []
  | c :: rest =>
      match index_of c header, indices_of rest header with
      | Some i, Some l => Some (i :: l)
      | _, _ => None
      end
  end.

Definition project (idx : list nat) (r : list cell) : list cell :=
  map (fun i => cell_at i r) idx.

(** [df[cols]] for a list of labels: a new table with these columns, or
    [KeyError] naming the labels that the table lacks. *)
Definition select (cols : list string) (df : DataFrame) : result DataFrame :=
  match indices_of cols (columns df) with
  | Some idx => Ok {| columns := cols; rows := map (project idx) (rows df) |}
  | None => Raise (KeyError (filter (fun c => negb (has_column c df)) cols))
  end.

(** [df[mask]] for a boolean mask aligned with the rows. *)
Fixpoint pick {A : Type} (mask : list bool) (l : list A) : list A :=
  match mask, l with
  | b :: mask', x :: l' => if b then x :: pick mask' l' else pick mask' l'
  | _, _ => []
  end.

Definition where_ (mask : list bool) (df : DataFrame) : DataFrame :=
  {| columns := columns df; rows := pick mask (rows df) |}.

(** [df.dropna(how='all')]: drop the rows whose cells are all missing. *)
Definition dropna_all (df : DataFrame) : DataFrame :=
  where_ (map (fun r => negb (forallb isna r)) (rows df)) df.

(** The mask of [duplicated(keep='first')] over a list of keys: [true] at a
    key already met further up. *)
Fixpoint duplicated_from (seen : list key) (ks : list key) : list bool :=
  match ks with
  | [] => []
  | k :: ks' =>
      if key_mem k seen then true :: duplicated_from seen ks'
      else false :: duplicated_from (k :: seen) ks'
  end.

Definition duplicated_values (col : list cell) : list bool :=
  duplicated_from [] (map cell_key col).

(** [series.unique()]: the distinct values in order of first appearance. *)
Definition unique (col : list cell) : list cell :=
  pick (map negb (duplicated_values col)) col.

(** [series.nunique()]: the number of distinct values, missing ones apart. *)
Definition nunique (col : list cell) : nat :=
  List.length (unique (filter (fun v => negb (isna v)) col)).

(** [series.isna().sum()] *)
Definition count_na (col : list cell) : nat :=
  List.length (filter isna col).

(** [df.duplicated(subset=[c], keep='first')] *)
Definition duplicated (c : string) (df : DataFrame) : result (list bool) :=
  bind (column c df) (fun col => Ok (duplicated_values col)).

(** [df.drop_duplicates(subset=[c], keep='first')] *)
Definition drop_duplicates (c : string) (df : DataFrame) : result DataFrame :=
  bind (duplicated c df) (fun mask => Ok (where_ (map negb mask) df)).

Fixpoint replace_at {A : Type} (i : nat) (v : A) (l : list A) : list A :=
  match i, l with
  | _, [] => []
  | O, _ :: l' => v :: l'
  | S i', x :: l' => x :: replace_at i' v l'
  end.

(** [df[c] = values], for values aligned with the rows: the column is
    replaced when the table has it and added at the end otherwise. *)
Definition assign (c : string) (values : list cell) (df : DataFrame)
  : DataFrame :=
  match index_of c (columns df) with
  | Some i =>
      {| columns := columns df;
         rows := map (fun rv => replace_at i (snd rv) (fst rv))
                     (combine (rows df) values) |}
  | None =>
      {| columns := columns df ++ [c];
         rows := map (fun rv => fst rv ++ [snd rv])
                     (combine (rows df) values) |}
  end.

(** [df[c] = v] for a single value, repeated down the column. *)
Definition assign_scalar (c : string) (v : cell) (df : DataFrame) : DataFrame :=
  assign c (repeat v (len df)) df.

(** [series.apply(f)] *)
Fixpoint apply (f : cell -> result cell) (col : list cell)
  : result (list cell) :=
  match col with
  | [] => Ok []
  | v :: col' =>
      bind (f v) (fun w => bind (apply f col') (fun ws => Ok (w :: ws)))
  end.

Fixpoint remove_at {A : Type} (i : nat) (l : list A) : list A :=
  match i, l with
  | _, [] => []
  | O, _ :: l' => l'
  | S i', x :: l' => x :: remove_at i' l'
  end.

(** [df.drop(columns=[c])] for a column that the table has. *)
Definition drop_column (c : string) (df : DataFrame) : DataFrame :=
  match index_of c (columns df) with
  | Some i => {| columns := remove_at i (columns df);
                 rows := map (remove_at i) (rows df) |}
  | None => df
  end.

Fixpoint lookup (c : string) (d : list (string * string)) : option string :=
  match d with
  | [] => None
  | (k, v) :: d' => if String.eqb c k then Some v else lookup c d'
  end.

(** [df.rename(columns=d)] *)
Definition rename (d : list (string * string)) (df : DataFrame) : DataFrame :=
  {| columns := map (fun c => match lookup c d with
                              | Some c' => c'
                              | None => c
                              end) (columns df);
     rows := rows df |}.

End Frame.

(* ------------------------------------------------------------------------- *)
(** * etl/utils/parsing.py *)

Module Parsing.
Import Py Frame.

Fixpoint has_slash (s : string) : bool :=
  match s with
  | EmptyString => false
  | String c s' => Ascii.eqb c "/" || has_slash s'
  end.

(** [os.path.basename(path)]: what follows the last slash. *)
Fixpoint basename (path : string) : string :=
  match path with
  | EmptyString => EmptyString
  | String _ rest => if has_slash path then basename rest else path
  end.

(** [re.match(r'^YE(\d{2})', s, re.IGNORECASE)]: the two digits of group 1
    when [s] starts with the pattern. *)
Definition match_ye_digits (s : string) : option string :=
  match s with
  | String y (String e (String d1 (String d2 _))) =>
      if Ascii.eqb (lower y) "y" && Ascii.eqb (lower e) "e"
         && is_digit d1 && is_digit d2
      then Some (String d1 (String d2 EmptyString))
      else None
  | _ => None
  end.

Definition extract_year_from_filename (filename : string) : option Z :=
  let basename := basename filename in
  match match_ye_digits basename with
  | Some group1 =>
      let two_digit_year := digits_value (list_ascii_of_string group1) in
      let four_digit_year := 2000 + two_digit_year in
      Some four_digit_year
  | None => None
  end.

Definition float_zero : pyfloat := FFin false 0 0.

(** [coerce_to_numeric(value, allow_null)]; the result [None] is the cell
    [CNone]. *)
Definition coerce_to_numeric (value : cell) (allow_null : bool) : result cell :=
  if isna value || eq_empty_str value || is_none value
  then Ok (if allow_null then CNone else CFloat float_zero)
  else
    except_value_or_type
      (bind (py_float value) (fun x => Ok (CFloat x)))
      (Ok (if allow_null then CNone else CFloat float_zero)).

(** [coerce_to_integer(value, allow_null)] *)
Definition coerce_to_integer (value : cell) (allow_null : bool) : result cell :=
  if isna value || eq_empty_str value || is_none value
  then Ok (if allow_null then CNone else CInt 0)
  else
    except_value_or_type
      (bind (py_float value) (fun x =>
       bind (int_of_float x) (fun z => Ok (CInt z))))
      (Ok (if allow_null then CNone else CInt 0)).

(** [coerce_to_text(value, allow_null)]; it has no statement that can
    raise. *)
Definition coerce_to_text `{FloatFormat} (value : cell) (allow_null : bool)
  : cell :=
  if isna value || is_none value
  then (if allow_null then CNone else CStr EmptyString)
  else CStr (strip (py_str value)).

(** The loop shared by the two column helpers:
    [for col in cols: if col in df.columns: df[col] = df[col].apply(f)].
    The helpers update the table they are given and return it; an exception
    raised by [f] leaves the loop. *)
Fixpoint coerce_columns (f : cell -> result cell) (df : DataFrame)
  (cols : list string) : result DataFrame :=
  match cols with
  | [] => Ok df
  | col :: rest =>
      match find_column col df with
      | Some values =>
          bind (apply f values) (fun values' =>
          coerce_columns f (assign col values' df) rest)
      | None => coerce_columns f df rest
      end
  end.

Definition coerce_numeric_columns (df : DataFrame) (numeric_columns : list string)
  : result DataFrame :=
  coerce_columns (fun x => coerce_to_numeric x true) df numeric_columns.

Definition coerce_integer_columns (df : DataFrame) (integer_columns : list string)
  : result DataFrame :=
  coerce_columns (fun x => coerce_to_integer x true) df integer_columns.

Definition get_numeric_location_columns : list string :=
  ["latitude"; "longitude"; "verified_latitude"; "verified_longitude"].

Definition get_integer_location_columns : list string := ["yr_built"].

Definition get_numeric_trend_columns : list string :=
  ["curr_natl_index"; "curr_annual_sls_k"; "curr_mkt_index";
   "past_natl_index"; "past_annual_sls_k"; "past_mkt_index"].

Definition get_integer_trend_columns : list string :=
  ["year"; "survey_yr_last_c"; "survey_yr_next_c"; "ttl_no_surveys_c";
   "past_yrs"; "survey_yr_last_p"; "survey_yr_next_p"; "ttl_no_surveys_p"].

End Parsing.

(* ------------------------------------------------------------------------- *)
(** * etl/utils/mapping.py *)

Module Mapping.
Import Py Frame.

Definition LOCATION_COLUMN_MAP : list (string * string) :=
  [ ("STORE_NO", "store_no");
    ("CHAIN_NO", "chain_no");
    ("CHAIN", "chain");
    ("GEOADDRESS", "geoaddress");
    ("GEOCITY", "geocity");
    ("GEOSTATE", "geostate");
    ("GEOZIP", "geozip");
    ("GEOZIP4", "geozip4");
    ("COUNTY", "county");
    ("DMA(MARKET)", "dma_market");
    ("DMA_NO", "dma_no");
    ("SEGMENT", "segment");
    ("SUBSEGMENT", "subsegment");
    ("CATEGORY", "category");
    ("LATITUDE", "latitude");
    ("LONGITUDE", "longitude");
    ("GEOQUALITY", "geoquality");
    ("YR_BUILT", "yr_built");
    ("CO/FR", "co_fr");
    ("CO/FR_NO", "co_fr_no");
    ("SEG_NO", "seg_no") ].

Definition TREND_COLUMN_MAP : list (string * string) :=
  [ ("STORE_NO", "store_no");
    ("YEAR", "year");
    ("CNG(CURR_NATL_GRADE)", "curr_natl_grade");
    ("CNI(CURR_NATL_INDEX)", "curr_natl_index");
    ("CURR_ANNUAL_SLS($000)", "curr_annual_sls_k");
    ("CMG(CURR_MKT_GRADE)", "curr_mkt_grade");
    ("LABEL(CNG/CMG)", "label_cng_cmg");
    ("LABEL(CNG<PNG)", "label_cng_lt_png");
    ("CMI(CURR_MKT_INDEX)", "curr_mkt_index");
    ("SURVEY_YR(LAST/C)", "survey_yr_last_c");
    ("SURVEY_YR(NEXT/C)", "survey_yr_next_c");
    ("TTL_NO_SURVEYS(C)", "ttl_no_surveys_c");
    ("PAST_YRS", "past_yrs");
    ("PNG(PAST_NATL_GRADE)", "past_natl_grade");
    ("LABEL(PNG)", "label_png");
    ("PNI(PAST_NATL_INDEX)", "past_natl_index");
    ("PAST_ANNUAL_SLS($000)", "past_annual_sls_k");
    ("PMG(PAST_MKT_GRADE)", "past_mkt_grade");
    ("LABEL(PNG/PMG)", "label_png_pmg");
    ("PMI(PAST_MKT_INDEX)", "past_mkt_index");
    ("SURVEY_YR(LAST/P)", "survey_yr_last_p");
    ("SURVEY_YR(NEXT/P)", "survey_yr_next_p");
    ("TTL_NO_SURVEYS(P)", "ttl_no_surveys_p") ].

(** [list(LOCATION_COLUMN_MAP.keys())] *)
Definition get_location_columns : list string := map fst LOCATION_COLUMN_MAP.

(** [[k for k in TREND_COLUMN_MAP.keys() if k != 'YEAR']] *)
Definition get_trend_columns : list string :=
  filter (fun k => negb (String.eqb k "YEAR")) (map fst TREND_COLUMN_MAP).

(** [{k: v for k, v in m.items() if k in df.columns}] *)
Definition rename_dict (m : list (string * string)) (df : DataFrame)
  : list (string * string) :=
  filter (fun kv => has_column (fst kv) df) m.

Definition map_location_columns (df : DataFrame) : DataFrame :=
  rename (rename_dict LOCATION_COLUMN_MAP df) df.

Definition map_trend_columns (df : DataFrame) : DataFrame :=
  rename (rename_dict TREND_COLUMN_MAP df) df.

(** [validate_required_columns(df, required_columns)] of this module: the
    pair [(len(missing) == 0, missing)]; unlike its namesake of the cleaning
    module it logs nothing. *)
Definition validate_required_columns (df : DataFrame)
  (required_columns : list string) : bool * list string :=
  let missing := filter (fun col => negb (has_column col df)) required_columns in
  (Nat.eqb (List.length missing) 0, missing).

End Mapping.

(* ------------------------------------------------------------------------- *)
(** * etl/utils/cleaning.py *)

Module Cleaning.
Import Py Frame.

Record CleaningStats : Type := {
  total_rows : Z;
  empty_rows_dropped : Z;
  null_store_no_dropped : Z;
  invalid_coords_dropped : Z;
  duplicate_rows_dropped : Z;
  warnings : list string
}.

(** [CleaningStats()] *)
Definition new_stats : CleaningStats :=
  {| total_rows := 0; empty_rows_dropped := 0; null_store_no_dropped := 0;
     invalid_coords_dropped := 0; duplicate_rows_dropped := 0;
     warnings := [] |}.

Definition get_final_count (self : CleaningStats) : Z :=
  total_rows self - empty_rows_dropped self - null_store_no_dropped self
  - invalid_coords_dropped self - duplicate_rows_dropped self.

Definition set_total_rows (n : Z) (s : CleaningStats) : CleaningStats :=
  {| total_rows := n; empty_rows_dropped := empty_rows_dropped s;
     null_store_no_dropped := null_store_no_dropped s;
     invalid_coords_dropped := invalid_coords_dropped s;
     duplicate_rows_dropped := duplicate_rows_dropped s;
     warnings := warnings s |}.

Definition set_empty_rows_dropped (n : Z) (s : CleaningStats) : CleaningStats :=
  {| total_rows := total_rows s; empty_rows_dropped := n;
     null_store_no_dropped := null_store_no_dropped s;
     invalid_coords_dropped := invalid_coords_dropped s;
     duplicate_rows_dropped := duplicate_rows_dropped s;
     warnings := warnings s |}.

Definition set_null_store_no_dropped (n : Z) (s : CleaningStats)
  : CleaningStats :=
  {| total_rows := total_rows s; empty_rows_dropped := empty_rows_dropped s;
     null_store_no_dropped := n;
     invalid_coords_dropped := invalid_coords_dropped s;
     duplicate_rows_dropped := duplicate_rows_dropped s;
     warnings := warnings s |}.

Definition set_duplicate_rows_dropped (n : Z) (s : CleaningStats)
  : CleaningStats :=
  {| total_rows := total_rows s; empty_rows_dropped := empty_rows_dropped s;
     null_store_no_dropped := null_store_no_dropped s;
     invalid_coords_dropped := invalid_coords_dropped s;
     duplicate_rows_dropped := n;
     warnings := warnings s |}.

(** [stats.warnings.append(w)] *)
Definition append_warning (w : string) (s : CleaningStats) : CleaningStats :=
  {| total_rows := total_rows s; empty_rows_dropped := empty_rows_dropped s;
     null_store_no_dropped := null_store_no_dropped s;
     invalid_coords_dropped := invalid_coords_dropped s;
     duplicate_rows_dropped := duplicate_rows_dropped s;
     warnings := warnings s ++ [w] |}.

(** ** The effects of a cleaning step: the statistics object it is handed
    and the module's logger *)

Inductive level : Type := DEBUG | INFO | WARNING | ERROR.

Record log_record : Type := {
  record_level : level;
  record_message : string
}.

Record env : Type := {
  stats : CleaningStats;
  log : list log_record
}.

Definition M (A : Type) : Type := env -> A * env.

Definition ret {A : Type} (a : A) : M A := fun s => (a, s).

Definition mbind {A B : Type} (c : M A) (k : A -> M B) : M B :=
  fun s => let '(a, s') := c s in k a s'.

Notation "x <- c ;; k" := (mbind c (fun x => k))
  (at level 61, c at next level, right associativity).
Notation "c ;;; k" := (mbind c (fun _ => k))
  (at level 61, right associativity).

Definition logger (lv : level) (message : string) : M unit :=
  fun s =>
    (tt, {| stats := stats s;
            log := log s ++ [{| record_level := lv;
                                record_message := message |}] |}).

Definition update_stats (f : CleaningStats -> CleaningStats) : M unit :=
  fun s => (tt, {| stats := f (stats s); log := log s |}).

Definition get_stats : M CleaningStats := fun s => (stats s, s).

Definition when (b : bool) (c : M unit) : M unit := if b then c else ret tt.

Fixpoint for_each {A : Type} (l : list A) (body : A -> M unit) : M unit :=
  match l with
  | [] => ret tt
  | x :: l' => body x ;;; for_each l' body
  end.

Fixpoint repeat_string (s : string) (n : nat) : string :=
  match n with
  | O => EmptyString
  | S n' => s +++ repeat_string s n'
  end.

(** [CleaningStats.log_summary] *)
Definition log_summary : M unit :=
  self <- get_stats ;;
  logger INFO (repeat_string "=" 60) ;;;
  logger INFO "DATA CLEANING SUMMARY" ;;;
  logger INFO (repeat_string "=" 60) ;;;
  logger INFO ("Total rows read:              " +++ str_of_int (total_rows self)) ;;;
  logger INFO ("Empty rows dropped:           " +++ str_of_int (empty_rows_dropped self)) ;;;
  logger INFO ("Null STORE_NO dropped:        " +++ str_of_int (null_store_no_dropped self)) ;;;
  logger INFO ("Invalid coordinates dropped:  " +++ str_of_int (invalid_coords_dropped self)) ;;;
  logger INFO ("Duplicate rows dropped:       " +++ str_of_int (duplicate_rows_dropped self)) ;;;
  logger INFO ("Final valid rows:             " +++ str_of_int (get_final_count self)) ;;;
  logger INFO (repeat_string "=" 60) ;;;
  when (negb (Nat.eqb (List.length (warnings self)) 0))
    (logger WARNING ("Total warnings: " +++ str_of_nat (List.length (warnings self))) ;;;
     for_each (firstn 10 (warnings self))
       (fun warning => logger WARNING ("  - " +++ warning)) ;;;
     when (Nat.ltb 10 (List.length (warnings self)))
       (logger WARNING ("  ... and "
                        +++ str_of_nat (List.length (warnings self) - 10)
                        +++ " more warnings"))).

Definition drop_empty_rows (df : DataFrame) : M DataFrame :=
  let initial_count := Z.of_nat (len df) in
  let df_cleaned := dropna_all df in
  let dropped_count := initial_count - Z.of_nat (len df_cleaned) in
  update_stats (set_empty_rows_dropped dropped_count) ;;;
  when (0 <? dropped_count)
    (logger INFO ("Dropped " +++ str_of_int dropped_count
                  +++ " completely empty rows")) ;;;
  ret df_cleaned.

(** The mask [df['STORE_NO'].notna() & (df['STORE_NO'] != '')] *)
Definition store_no_present (store_no : list cell) : list bool :=
  map (fun v => negb (isna v) && negb (eq_empty_str v)) store_no.

Definition drop_null_store_no (df : DataFrame) : M DataFrame :=
  let initial_count := Z.of_nat (len df) in
  match find_column "STORE_NO" df with
  | None =>
      logger ERROR "STORE_NO column not found in DataFrame!" ;;;
      update_stats (append_warning "STORE_NO column missing from data") ;;;
      ret df
  | Some store_no =>
      let df_cleaned := where_ (store_no_present store_no) df in
      let dropped_count := initial_count - Z.of_nat (len df_cleaned) in
      update_stats (set_null_store_no_dropped dropped_count) ;;;
      when (0 <? dropped_count)
        (logger WARNING ("Dropped " +++ str_of_int dropped_count
                         +++ " rows with null STORE_NO") ;;;
         update_stats (append_warning
           (str_of_int dropped_count
            +++ " rows missing required STORE_NO field"))) ;;;
      ret df_cleaned
  end.

Definition drop_duplicate_store_nos `{FloatFormat} (df : DataFrame)
  : M DataFrame :=
  let initial_count := Z.of_nat (len df) in
  match find_column "STORE_NO" df with
  | None => ret df
  | Some store_no =>
      let mask := duplicated_values store_no in
      let duplicates := where_ mask df in
      when (Nat.ltb 0 (len duplicates))
        (logger WARNING ("Found " +++ str_of_nat (len duplicates)
                         +++ " duplicate STORE_NO values") ;;;
         (* duplicates['STORE_NO'].unique()[:5] *)
         let dup_stores := firstn 5 (unique (pick mask store_no)) in
         logger WARNING ("Example duplicates: "
                         +++ join ", " (map py_str dup_stores)) ;;;
         update_stats (append_warning
           (str_of_nat (len duplicates)
            +++ " duplicate STORE_NO values found"))) ;;;
      let df_cleaned := where_ (map negb mask) df in
      let dropped_count := initial_count - Z.of_nat (len df_cleaned) in
      update_stats (set_duplicate_rows_dropped dropped_count) ;;;
      ret df_cleaned
  end.

(** [validate_required_columns(df, required_columns)] *)
Definition validate_required_columns (df : DataFrame)
  (required_columns : list string) : M (bool * list string) :=
  let missing := filter (fun col => negb (has_column col df)) required_columns in
  match missing with
  | [] => ret (true, [])
  | _ :: _ =>
      logger ERROR ("Missing required columns: " +++ join ", " missing) ;;;
      ret (false, missing)
  end.

(** ** Quality metrics *)

Record Metrics : Type := {
  metrics_total_rows : nat;
  null_percentages : list (string * cell);
  unique_stores : nat;
  unique_chains : nat;
  unique_states : nat
}.

(** [(null_count / len(df)) * 100 if len(df) > 0 else 0] *)
Definition null_pct_of (null_count n : nat) : cell :=
  if Nat.ltb 0 n
  then CFloat (float_mul_int (float_div_int (Z.of_nat null_count) (Z.of_nat n)) 100)
  else CInt 0.

Definition pct_gt_10 (pct : cell) : bool :=
  match pct with
  | CFloat f => float_gt_int f 10
  | CInt z => 10 <? z
  | _ => false
  end.

Definition pct_round_2 `{FloatFormat} (pct : cell) : cell :=
  match pct with
  | CFloat f => CFloat (float_round_2 f)
  | other => other
  end.

Definition pct_format_1f `{FloatFormat} (pct : cell) : string :=
  match pct with
  | CFloat f => float_format_1f f
  | CInt z => str_of_int z +++ ".0"
  | _ => EmptyString
  end.

Definition key_columns : list string :=
  ["STORE_NO"; "CHAIN"; "GEOSTATE"; "LATITUDE"; "LONGITUDE"].

(** The loop over [key_columns], returning [metrics['null_percentages']]. *)
Fixpoint null_percentage_loop `{FloatFormat} (df : DataFrame)
  (cols : list string) (acc : list (string * cell))
  : M (list (string * cell)) :=
  match cols with
  | [] => ret acc
  | col :: rest =>
      match find_column col df with
      | Some values =>
          let null_count := count_na values in
          let null_pct := null_pct_of null_count (len df) in
          when (pct_gt_10 null_pct)
            (let msg := "Column '" +++ col +++ "' has "
                        +++ pct_format_1f null_pct +++ "% null values" in
             logger WARNING msg ;;;
             update_stats (append_warning msg)) ;;;
          null_percentage_loop df rest (acc ++ [(col, pct_round_2 null_pct)])
      | None => null_percentage_loop df rest acc
      end
  end.

Definition check_data_quality `{FloatFormat} (df : DataFrame) : M Metrics :=
  pcts <- null_percentage_loop df key_columns [] ;;
  let stores := match find_column "STORE_NO" df with
                | Some values => nunique values
                | None => 0%nat
                end in
  chains <- match find_column "CHAIN" df with
            | Some values =>
                logger INFO ("Data contains " +++ str_of_nat (nunique values)
                             +++ " unique chains") ;;;
                ret (nunique values)
            | None => ret 0%nat
            end ;;
  states <- match find_column "GEOSTATE" df with
            | Some values =>
                logger INFO ("Data contains " +++ str_of_nat (nunique values)
                             +++ " unique states") ;;;
                ret (nunique values)
            | None => ret 0%nat
            end ;;
  ret {| metrics_total_rows := len df;
         null_percentages := pcts;
         unique_stores := stores;
         unique_chains := chains;
         unique_states := states |}.

(** The body of [clean_excel_data] after the statistics object exists. *)
Definition cleaning_steps `{FloatFormat} (df : DataFrame) : M DataFrame :=
  s <- get_stats ;;
  logger INFO ("Starting data cleaning with " +++ str_of_int (total_rows s)
               +++ " rows") ;;;
  df <- drop_empty_rows df ;;
  df <- drop_null_store_no df ;;
  df <- drop_duplicate_store_nos df ;;
  quality_metrics <- check_data_quality df ;;
  log_summary ;;;
  ret df.

(** [clean_excel_data(df)], run with the log as it stands: the cleaned
    table, the statistics and the log afterwards. *)
Definition clean_excel_data `{FloatFormat} (df : DataFrame)
  (log0 : list log_record) : DataFrame * CleaningStats * list log_record :=
  let start := {| stats := set_total_rows (Z.of_nat (len df)) new_stats;
                  log := log0 |} in
  let '(df', final) := cleaning_steps df start in
  (df', stats final, log final).

Definition validate_location_data (df : DataFrame) : M bool :=
  let required := ["store_no"] in
  r <- validate_required_columns df required ;;
  let '(is_valid, missing) := r in
  when (negb is_valid)
    (logger ERROR ("Location data validation failed: missing "
                   +++ repr_labels missing)) ;;;
  ret is_valid.

Definition validate_trend_data (df : DataFrame) : M bool :=
  let required := ["store_no"; "year"] in
  r <- validate_required_columns df required ;;
  let '(is_valid, missing) := r in
  when (negb is_valid)
    (logger ERROR ("Trend data validation failed: missing "
                   +++ repr_labels missing)) ;;;
  ret is_valid.

End Cleaning.

(* ------------------------------------------------------------------------- *)
(** * etl/loaders/postgres_loader.py *)

Module Loader.
Import Py Frame.

(** ** The store

    A stored record maps field names to values; a field that an insert does
    not name is NULL, here [CNone].  A connection sees the committed tables
    and the tables as changed by its open transaction.  The store can refuse
    any request (lost connection, rejected statement): [faults] tells, for
    each request still to come, whether it fails. *)
Definition dbrow : Type := list (string * cell).

Fixpoint field (c : string) (r : dbrow) : cell :=
  match r with
  | [] => CNone
  | (k, v) :: r' => if String.eqb c k then v else field c r'
  end.

Fixpoint set_field (c : string) (v : cell) (r : dbrow) : dbrow :=
  match r with
  | [] => [(c, v)]
  | (k, w) :: r' =>
      if String.eqb c k then (k, v) :: r' else (k, w) :: set_field c v r'
  end.

Record database : Type := {
  restaurant_location : list dbrow;
  restaurant_trend : list dbrow
}.

Record connection : Type := {
  committed : database;
  pending : database;
  faults : list bool;
  is_open : bool
}.

(** SQL equality: never true of NULL. *)
Definition sql_eq (a b : cell) : bool :=
  negb (is_none a) && negb (is_none b) && same_key a b.

Definition conflicts (keys : list string) (a b : dbrow) : bool :=
  forallb (fun k => sql_eq (field k a) (field k b)) keys.

(** One row of [INSERT ... ON CONFLICT (keys) DO UPDATE SET c = EXCLUDED.c]
    for [c] in [update_cols]. *)
Fixpoint upsert_row (keys update_cols : list string) (incoming : dbrow)
  (table : list dbrow) : list dbrow :=
  match table with
  | [] => [incoming]
  | r :: rest =>
      if conflicts keys r incoming
      then fold_left (fun acc c => set_field c (field c incoming) acc)
                     update_cols r :: rest
      else r :: upsert_row keys update_cols incoming rest
  end.

Definition upsert_rows (keys update_cols columns : list string)
  (values : list (list cell)) (table : list dbrow) : list dbrow :=
  fold_left (fun t vals => upsert_row keys update_cols (combine columns vals) t)
            values table.

(** [cursor.rowcount] after [execute_values]: the rows of the last page of
    100 it sent. *)
Definition rowcount_after (n : nat) : Z :=
  if Nat.eqb n 0 then 0
  else if Nat.eqb (Nat.modulo n 100) 0 then 100
  else Z.of_nat (Nat.modulo n 100).

(** ** The loader's effects: the connection, and exceptions *)

Definition L (A : Type) : Type := connection -> connection * result A.

Definition lret {A : Type} (a : A) : L A := fun c => (c, Ok a).

Definition lraise {A : Type} (e : exn) : L A := fun c => (c, Raise e).

Definition lbind {A B : Type} (m : L A) (k : A -> L B) : L B :=
  fun c =>
    match m c with
    | (c', Ok a) => k a c'
    | (c', Raise e) => (c', Raise e)
    end.

Notation "x <-- m ; k" := (lbind m (fun x => k))
  (at level 61, m at next level, right associativity).

(** The next request to the store: does it fail? *)
Definition request : L bool :=
  fun c =>
    match faults c with
    | [] => (c, Ok false)
    | b :: rest =>
        ({| committed := committed c; pending := pending c;
            faults := rest; is_open := is_open c |}, Ok b)
    end.

Definition set_pending (db : database) : L unit :=
  fun c => ({| committed := committed c; pending := db;
               faults := faults c; is_open := is_open c |}, Ok tt).

Definition get_pending : L database := fun c => (c, Ok (pending c)).

(** [self.conn.commit()] *)
Definition commit : L unit :=
  fun c => ({| committed := pending c; pending := pending c;
               faults := faults c; is_open := is_open c |}, Ok tt).

(** [self.conn.rollback()] *)
Definition rollback (c : connection) : connection :=
  {| committed := committed c; pending := committed c;
     faults := faults c; is_open := is_open c |}.

(** [self.close()] *)
Definition close (c : connection) : connection :=
  {| committed := committed c; pending := pending c;
     faults := faults c; is_open := false |}.

(** [self.connect()]: a new session starts from the committed tables. *)
Definition connect : L unit :=
  failed <-- request ;
  if failed then lraise (DatabaseError "could not connect")
  else fun c => ({| committed := committed c; pending := committed c;
                    faults := faults c; is_open := true |}, Ok tt).

(** [PostgresLoader.__init__]: the connection string in use. *)
Definition init (connection_string database_url : option string)
  : result string :=
  let chosen :=
    match connection_string with
    | Some ((String _ _) as s) => Some s
    | _ => database_url
    end in
  match chosen with
  | Some ((String _ _) as s) => Ok s
  | _ => Raise (ValueError
      ("No database connection string provided. "
       +++ "Set DATABASE_URL environment variable or pass connection_string parameter."))
  end.

(** A [try] block around requests to the store:
    [except psycopg2.Error: self.conn.rollback(); raise]. *)
Definition or_rollback {A : Type} (failed : bool) (work : L A) : L A :=
  if failed
  then fun c => (rollback c, Raise (DatabaseError "the store refused the request"))
  else work.

Definition upsert_locations (df : DataFrame) : L (Z * Z) :=
  if empty df then lret (0, 0)
  else if negb (has_column "store_no" df)
  then lraise (ValueError "DataFrame must contain 'store_no' column")
  else
    let columns := columns df in
    let values := rows df in
    let update_cols :=
      filter (fun col => negb (String.eqb col "store_no")
                         && negb (String.eqb col "created_at")) columns in
    failed <-- request ;
    or_rollback failed
      (db <-- get_pending ;
       _ <-- set_pending
               {| restaurant_location :=
                    upsert_rows ["store_no"] update_cols columns values
                                (restaurant_location db);
                  restaurant_trend := restaurant_trend db |} ;
       _ <-- commit ;
       let rows_affected := rowcount_after (List.length values) in
       lret (rows_affected, 0)).

Definition upsert_trends (df : DataFrame) : L (Z * Z) :=
  if empty df then lret (0, 0)
  else
    let required := ["store_no"; "year"] in
    match filter (fun col => negb (has_column col df)) required with
    | (_ :: _) as missing =>
        lraise (ValueError ("DataFrame missing required columns: "
                            +++ repr_labels missing))
    | [] =>
        let df := if has_column "trend_id" df
                  then drop_column "trend_id" df else df in
        let columns := columns df in
        let values := rows df in
        let update_cols :=
          filter (fun col =>
                    negb (existsb (String.eqb col)
                            ["store_no"; "year"; "trend_id"; "created_at"]))
                 columns in
        failed <-- request ;
        or_rollback failed
          (db <-- get_pending ;
           _ <-- set_pending
                   {| restaurant_location := restaurant_location db;
                      restaurant_trend :=
                        upsert_rows ["store_no"; "year"] update_cols columns
                                    values (restaurant_trend db) |} ;
           _ <-- commit ;
           let rows_affected := rowcount_after (List.length values) in
           lret (rows_affected, 0))
    end.

(** [SELECT store_no FROM restaurant_location WHERE store_no IN (params)] *)
Definition select_store_no_in (params : list cell) (db : database)
  : list cell :=
  filter (fun k => existsb (sql_eq k) params)
         (map (field "store_no") (restaurant_location db)).

(** [v in s] for the set [s] of fetched values: equal by value; a NaN is
    equal to nothing. *)
Definition py_in (v : cell) (s : list cell) : bool :=
  existsb (fun w => same_key v w && negb (key_eqb (cell_key v) KNan)) s.

Definition verify_foreign_keys (trend_df : DataFrame) : L (bool * list cell) :=
  if empty trend_df then lret (true, [])
  else
    match column "store_no" trend_df with
    | Raise e => lraise e
    | Ok values =>
        let store_nos := unique values in
        failed <-- request ;
        if failed
        then lraise (DatabaseError "the store refused the request")
        else
          db <-- get_pending ;
          let existing := select_store_no_in store_nos db in
          let missing := filter (fun sn => negb (py_in sn existing)) store_nos in
          match missing with
          | _ :: _ => lret (false, missing)
          | [] => lret (true, [])
          end
    end.

(** ** Summary statistics *)

Record LoadStats : Type := {
  total_locations : nat;
  total_trends : nat;
  locations_with_verified_coords : nat;
  year_range : string
}.

(** [MIN(year)] and [MAX(year)] over the integer years stored. *)
Definition stored_years (db : database) : list Z :=
  flat_map (fun r => match field "year" r with CInt y => [y] | _ => [] end)
           (restaurant_trend db).

Definition min_max (l : list Z) : option (Z * Z) :=
  match l with
  | [] => None
  | y :: rest => Some (fold_left Z.min rest y, fold_left Z.max rest y)
  end.

(** [get_load_stats]: four queries; [None] is the empty dict returned when
    the store refuses one of them. *)
Definition get_load_stats : L (option LoadStats) :=
  f1 <-- request ;
  if f1 then lret None else
  f2 <-- request ;
  if f2 then lret None else
  f3 <-- request ;
  if f3 then lret None else
  f4 <-- request ;
  if f4 then lret None else
  db <-- get_pending ;
  lret (Some
    {| total_locations := List.length (restaurant_location db);
       total_trends := List.length (restaurant_trend db);
       locations_with_verified_coords :=
         List.length
           (filter (fun r => negb (is_none (field "verified_latitude" r))
                             && negb (is_none (field "verified_longitude" r)))
                   (restaurant_location db));
       year_range :=
         match min_max (stored_years db) with
         | Some (min_year, max_year) =>
             if negb (min_year =? 0) && negb (max_year =? 0)
             then str_of_int min_year +++ "-" +++ str_of_int max_year
             else "No data"
         | None => "No data"
         end |}).

(** [with PostgresLoader(connection_string) as loader: body]: the
    connection is rolled back when the body raises, and closed either way. *)
Definition with_loader {A : Type} (connection_string database_url : option string)
  (body : L A) : L A :=
  fun server =>
    match init connection_string database_url with
    | Raise e => (server, Raise e)
    | Ok _ =>
        match connect server with
        | (c, Raise e) => (c, Raise e)
        | (c, Ok _) =>
            match body c with
            | (c', Ok a) => (close c', Ok a)
            | (c', Raise e) => (close (rollback c'), Raise e)
            end
        end
    end.

(** [test_connection(connection_string)]: open and leave the context
    manager; any exception is answered with [False]. *)
Definition test_connection (connection_string database_url : option string)
  : connection -> connection * bool :=
  fun server =>
    match with_loader connection_string database_url (lret true) server with
    | (c, Ok b) => (c, b)
    | (c, Raise _) => (c, false)
    end.

End Loader.

(* ------------------------------------------------------------------------- *)
(** * etl/etl_restaurant_trends.py *)

Module Etl.
Import Py Frame.

(** [split_location_and_trend_data(df, year)] *)
Definition split_location_and_trend_data (df : DataFrame) (year : Z)
  : result (DataFrame * DataFrame) :=
  let location_cols := Mapping.get_location_columns in
  bind (select location_cols df) (fun location_df =>
  let trend_cols := Mapping.get_trend_columns in
  bind (select trend_cols df) (fun trend_df =>
  let trend_df := assign_scalar "YEAR" (CInt year) trend_df in
  bind (drop_duplicates "STORE_NO" location_df) (fun location_df =>
  Ok (location_df, trend_df)))).

(** [apply_column_mapping_and_types(location_df, trend_df)].  The two
    validators write to the log of the cleaning module, so the function runs
    in that module's monad; what it raises is its result. *)
Definition apply_column_mapping_and_types (location_df trend_df : DataFrame)
  : Cleaning.M (result (DataFrame * DataFrame)) :=
  let location_df := Mapping.map_location_columns location_df in
  let trend_df := Mapping.map_trend_columns trend_df in
  match
    bind (Parsing.coerce_numeric_columns
            location_df Parsing.get_numeric_location_columns)
      (fun location_df =>
    bind (Parsing.coerce_integer_columns
            location_df Parsing.get_integer_location_columns)
      (fun location_df =>
    bind (Parsing.coerce_numeric_columns
            trend_df Parsing.get_numeric_trend_columns)
      (fun trend_df =>
    bind (Parsing.coerce_integer_columns
            trend_df Parsing.get_integer_trend_columns)
      (fun trend_df => Ok (location_df, trend_df)))))
  with
  | Raise e => Cleaning.ret (Raise e)
  | Ok (location_df, trend_df) =>
      Cleaning.mbind (Cleaning.validate_location_data location_df)
        (fun valid =>
      if negb valid
      then Cleaning.ret (Raise (ValueError "Location data validation failed"))
      else
        Cleaning.mbind (Cleaning.validate_trend_data trend_df)
          (fun valid =>
        if negb valid
        then Cleaning.ret (Raise (ValueError "Trend data validation failed"))
        else Cleaning.ret (Ok (location_df, trend_df))))
  end.

Definition fk_error (missing : list cell) : exn :=
  ValueError ("Cannot load trends: " +++ str_of_nat (List.length missing)
              +++ " store_nos not found in location table").

(** [load_to_database(location_df, trend_df, connection_string)], with the
    value of [DATABASE_URL] in the environment and the store it reaches. *)
Definition load_to_database (location_df trend_df : DataFrame)
  (connection_string database_url : option string) : Loader.L unit :=
  Loader.with_loader connection_string database_url
    (Loader.lbind (Loader.upsert_locations location_df) (fun _ =>
     Loader.lbind (Loader.verify_foreign_keys trend_df) (fun r =>
     let '(fk_valid, missing) := r in
     if negb fk_valid then Loader.lraise (fk_error missing)
     else
       Loader.lbind (Loader.upsert_trends trend_df) (fun _ =>
       Loader.lbind Loader.get_load_stats (fun stats =>
       Loader.lret tt))))).

End Etl.

(* ------------------------------------------------------------------------- *)
(** * What the specification says, in the vocabulary of the model *)

Module Spec.
Import Py Frame.

(** The base name starts with [YE], in either case, and two digits that
    read [d]. *)
Definition ye_prefixed (b : string) (d : Z) : Prop :=
  exists y e d1 d2 rest,
    b = String y (String e (String d1 (String d2 rest))) /\
    (y = "Y"%char \/ y = "y"%char) /\
    (e = "E"%char \/ e = "e"%char) /\
    is_digit d1 = true /\ is_digit d2 = true /\
    d = 10 * digit_value d1 + digit_value d2.

(** The null fallback of a coercion: [None] when nulls are allowed, the
    given zero otherwise. *)
Definition fallback (allow_null : bool) (zero : cell) : cell :=
  if allow_null then CNone else zero.

(** Row [i] is the first of the table with its key. *)
Definition first_with_key (keys : list cell) (i : nat) : Prop :=
  forall j, (j < i)%nat -> same_key (nth j keys CNone) (nth i keys CNone) = false.

(** No two cells of the list are the same key. *)
Fixpoint distinct_keys (l : list cell) : Prop :=
  match l with
  | [] => True
  | v :: l' => (forall w, In w l' -> same_key v w = false) /\ distinct_keys l'
  end.

(** [v] occurs in [l], as a key. *)
Definition key_in (v : cell) (l : list cell) : Prop :=
  exists w, In w l /\ same_key v w = true.

(** Keep-first deduplication as the specification words it: go down the
    rows and keep a row unless a row with its key was met before. *)
Fixpoint keep_first_from {A : Type} (key_of : A -> key) (seen : list key)
  (l : list A) : list A :=
  match l with
  | [] => []
  | x :: l' =>
      if key_mem (key_of x) seen then keep_first_from key_of seen l'
      else x :: keep_first_from key_of (key_of x :: seen) l'
  end.

Definition keep_first {A : Type} (key_of : A -> key) (l : list A) : list A :=
  keep_first_from key_of [] l.

(** The cleaned table as the specification describes it: the rows with
    some non-missing cell; of these, when there is a STORE_NO column, the rows
    whose key is neither missing nor the empty string; of these, the first
    row of each key. *)
Definition cleaned (df : DataFrame) : DataFrame :=
  let nonempty := filter (fun r => negb (forallb isna r)) (rows df) in
  match index_of "STORE_NO" (columns df) with
  | None => {| columns := columns df; rows := nonempty |}
  | Some i =>
      {| columns := columns df;
         rows := keep_first (fun r => cell_key (cell_at i r))
                   (filter (fun r => negb (isna (cell_at i r))
                                     && negb (eq_empty_str (cell_at i r)))
                           nonempty) |}
  end.

(** The counters of the statistics object, apart from its warnings. *)
Definition counters (st : Cleaning.CleaningStats) : Z * Z * Z * Z * Z :=
  (Cleaning.total_rows st, Cleaning.empty_rows_dropped st,
   Cleaning.null_store_no_dropped st, Cleaning.invalid_coords_dropped st,
   Cleaning.duplicate_rows_dropped st).

(** A cleaning computation that changes no counter. *)
Definition keeps_counters {A : Type} (c : Cleaning.M A) : Prop :=
  forall s, counters (Cleaning.stats (snd (c s))) = counters (Cleaning.stats s).

(** The second and third cleaning steps, as functions on tables. *)
Definition null_step (d : DataFrame) : DataFrame :=
  match find_column "STORE_NO" d with
  | Some c => where_ (Cleaning.store_no_present c) d
  | None => d
  end.

Definition dup_step (d : DataFrame) : DataFrame :=
  match find_column "STORE_NO" d with
  | Some c => where_ (map negb (duplicated_values c)) d
  | None => d
  end.



(** No stored location has the key [v]. *)
Definition no_location (v : cell) (db : Loader.database) : Prop :=
  forall r, In r (Loader.restaurant_location db) ->
            Loader.sql_eq (Loader.field "store_no" r) v = false.

End Spec.

(* ------------------------------------------------------------------------- *)
(** * Sample data for the examples *)

Module Samples.
Import Py Frame.

(** A runtime for the examples, whose tables hold no float: it prints a
    float as the integer it truncates to and rounds nothing. *)
Definition sample_format : FloatFormat :=
  {| float_repr := fun x => match int_of_float x with
                            | Ok z => str_of_int z
                            | Raise _ => "nan"
                            end;
     float_format_1f := fun x => match int_of_float x with
                                 | Ok z => str_of_int z +++ ".0"
                                 | Raise _ => "nan"
                                 end;
     float_round_2 := fun x => x |}.

Definition fresh_env : Cleaning.env :=
  {| Cleaning.stats := Cleaning.new_stats; Cleaning.log := [] |}.

(** Store A appears twice. *)
Definition repeated_store : DataFrame :=
  {| columns := ["STORE_NO"; "CHAIN"];
     rows := [ [CStr "A"; CStr "Alpha Grill"];
               [CStr "B"; CStr "Beta Diner"];
               [CStr "A"; CStr "Alpha Grill 2"] ] |}.


Definition no_key_column : DataFrame :=
  {| columns := ["CHAIN"; "GEOSTATE"];
     rows := [ [CStr "Alpha Grill"; CStr "TX"] ] |}.

(** A table with every listed column: the key and 41 more cells a row. *)
Definition full_header : list string :=
  Mapping.get_location_columns ++ tl Mapping.get_trend_columns.

Definition full_row (store_no : string) : list cell :=
  CStr store_no :: repeat (CInt 1) 41.

Definition full_table : DataFrame :=
  {| columns := full_header;
     rows := [full_row "A"; full_row "B"; full_row "A"] |}.

(** The loader example of the specification: trends for A, B and C, locations
    for A and B only, an empty store that answers every request. *)
Definition two_locations : DataFrame :=
  {| columns := ["store_no"; "chain"];
     rows := [ [CStr "A"; CStr "Alpha Grill"];
               [CStr "B"; CStr "Beta Diner"] ] |}.

Definition three_trends : DataFrame :=
  {| columns := ["store_no"; "year"; "curr_natl_grade"];
     rows := [ [CStr "A"; CInt 2024; CStr "A+"];
               [CStr "B"; CInt 2024; CStr "B"];
               [CStr "C"; CInt 2024; CStr "C-"] ] |}.

Definition empty_database : Loader.database :=
  {| Loader.restaurant_location := []; Loader.restaurant_trend := [] |}.

Definition empty_store : Loader.connection :=
  {| Loader.committed := empty_database; Loader.pending := empty_database;
     Loader.faults := []; Loader.is_open := false |}.

Definition connected : Loader.connection := fst (Loader.connect empty_store).

Definition locations_loaded : Loader.connection :=
  fst (Loader.upsert_locations two_locations connected).

End Samples.

(* ------------------------------------------------------------------------- *)
(** * Properties of the parsing utilities *)

Module ParsingFacts.
Import Py Frame Parsing Spec.

Ltac by_cases_on_char c :=
  destruct c as [[] [] [] [] [] [] [] []]; vm_compute;
  (split;
   [ let H := fresh in
     intro H; first [ discriminate H | left; reflexivity | right; reflexivity ]
   | let H := fresh in
     intro H; destruct H as [H | H]; first [ reflexivity | discriminate H ] ]).

Lemma lower_is_y (c : ascii) :
  Ascii.eqb (lower c) "y" = true <-> (c = "Y"%char \/ c = "y"%char).
Proof. by_cases_on_char c. Qed.

Lemma lower_is_e (c : ascii) :
  Ascii.eqb (lower c) "e" = true <-> (c = "E"%char \/ c = "e"%char).
Proof. by_cases_on_char c. Qed.

Lemma basename_has_no_slash (path : string) : has_slash (basename path) = false.
Proof.
  induction path as [| c rest IH].
  - reflexivity.
  - cbn [basename]. destruct (has_slash (String c rest)) eqn:E; [exact IH | exact E].
Qed.

(** The base name is what follows the last slash of the path. *)
Lemma basename_after_last_slash (path : string) :
  has_slash path = true ->
  exists dir, path = dir +++ String "/" (basename path).
Proof.
  induction path as [| c rest IH]; intro H.
  - discriminate H.
  - cbn [basename]. rewrite H.
    destruct (has_slash rest) eqn:E.
    + destruct (IH eq_refl) as [dir Hdir].
      exists (String c dir). cbn. rewrite <- Hdir. reflexivity.
    + exists EmptyString. cbn in H. rewrite E, orb_false_r in H.
      apply Ascii.eqb_eq in H. subst c. cbn.
      destruct rest; cbn; [reflexivity |].
      cbn in E. rewrite E. reflexivity.
Qed.

Lemma match_ye_digits_spec (b : string) :
  match match_ye_digits b with
  | Some g =>
      exists d1 d2, g = String d1 (String d2 EmptyString) /\
                    ye_prefixed b (10 * digit_value d1 + digit_value d2)
  | None => forall d, ~ ye_prefixed b d
  end.
Proof.
  unfold match_ye_digits.
  destruct b as [| y [| e [| d1 [| d2 rest]]]];
    try (intros d (y' & e' & a & b' & r & Hb & _); discriminate Hb).
  destruct (Ascii.eqb (lower y) "y") eqn:Hy; cbn [andb].
  - destruct (Ascii.eqb (lower e) "e") eqn:He; cbn [andb].
    + destruct (is_digit d1) eqn:H1; cbn [andb].
      * destruct (is_digit d2) eqn:H2.
        -- exists d1, d2. split; [reflexivity |].
           exists y, e, d1, d2, rest.
           repeat split; auto.
           ++ apply lower_is_y; exact Hy.
           ++ apply lower_is_e; exact He.
        -- intros d (y' & e' & a & b' & r & Hb & _ & _ & _ & Hd & _).
           injection Hb as -> -> -> -> ->. congruence.
      * intros d (y' & e' & a & b' & r & Hb & _ & _ & Hd & _).
        injection Hb as -> -> -> -> ->. congruence.
    + intros d (y' & e' & a & b' & r & Hb & _ & Hd & _).
      injection Hb as -> -> -> -> ->.
      apply lower_is_e in Hd. congruence.
  - intros d (y' & e' & a & b' & r & Hb & Hd & _).
    injection Hb as -> -> -> -> ->.
    apply lower_is_y in Hd. congruence.
Qed.

Lemma ye_prefixed_functional (b : string) (d d' : Z) :
  ye_prefixed b d -> ye_prefixed b d' -> d = d'.
Proof.
  intros (y & e & d1 & d2 & r & Hb & _ & _ & _ & _ & Hd)
         (y' & e' & d1' & d2' & r' & Hb' & _ & _ & _ & _ & Hd').
  rewrite Hb in Hb'. injection Hb' as <- <- <- <- <-. congruence.
Qed.

Lemma digits_value_two (a b : ascii) :
  digits_value [a; b] = 10 * digit_value a + digit_value b.
Proof. unfold digits_value. cbv [fold_left]. lia. Qed.

Lemma extract_year_when_prefixed (path : string) (d : Z) :
  ye_prefixed (basename path) d ->
  extract_year_from_filename path = Some (2000 + d).
Proof.
  intro Hd. unfold extract_year_from_filename.
  pose proof (match_ye_digits_spec (basename path)) as H.
  destruct (match_ye_digits (basename path)) as [g |].
  - destruct H as (d1 & d2 & -> & Hp).
    rewrite (ye_prefixed_functional Hd Hp).
    change (list_ascii_of_string (String d1 (String d2 EmptyString)))
      with [d1; d2].
    rewrite digits_value_two. reflexivity.
  - exfalso. exact (H d Hd).
Qed.

Lemma extract_year_when_not_prefixed (path : string) :
  (forall d, ~ ye_prefixed (basename path) d) ->
  extract_year_from_filename path = None.
Proof.
  intro Hno. unfold extract_year_from_filename.
  pose proof (match_ye_digits_spec (basename path)) as H.
  destruct (match_ye_digits (basename path)) as [g |]; [| reflexivity].
  destruct H as (d1 & d2 & _ & Hp). exfalso. exact (Hno _ Hp).
Qed.

(** C5.  When the base name of the path starts with YE (in either case)
    followed by two digits that read d, the year extractor returns 2000 + d,
    with no century window; when the base name does not start that way, it
    returns nothing. *)
Theorem extract_year_from_filename_spec :
  forall path : string,
    (forall d, ye_prefixed (basename path) d ->
               extract_year_from_filename path = Some (2000 + d)) /\
    ((forall d, ~ ye_prefixed (basename path) d) ->
     extract_year_from_filename path = None).
Proof.
  intro path. split.
  - intro d. apply extract_year_when_prefixed.
  - apply extract_year_when_not_prefixed.
Qed.

Example extract_year_ye24 :
  extract_year_from_filename "data/incoming/YE24 Oculus SG.xlsx" = Some 2024.
Proof. reflexivity. Qed.

Example extract_year_ye99 :
  extract_year_from_filename "ye99_Data.xlsx" = Some 2099.
Proof. reflexivity. Qed.

Example extract_year_no_match :
  extract_year_from_filename "YE24/Report 2024.xlsx" = None.
Proof. reflexivity. Qed.

(** What follows the two digits is free, a third digit included. *)
Example extract_year_third_digit :
  extract_year_from_filename "YE245.xlsx" = Some 2024.
Proof. reflexivity. Qed.

Lemma extract_year_from_filename_spec_witness :
  ye_prefixed (basename "data/incoming/YE24 Oculus SG.xlsx") 24 /\
  extract_year_from_filename "data/incoming/YE24 Oculus SG.xlsx" = Some 2024.
Proof.
  assert (H : ye_prefixed (basename "data/incoming/YE24 Oculus SG.xlsx") 24).
  { exists "Y"%char, "E"%char, "2"%char, "4"%char, " Oculus SG.xlsx".
    repeat split; auto. }
  split; [exact H |].
  exact (proj1 (extract_year_from_filename_spec
                  "data/incoming/YE24 Oculus SG.xlsx") 24 H).
Defined.

Lemma digit_value_range (c : ascii) :
  is_digit c = true -> 0 <= digit_value c <= 9.
Proof.
  unfold is_digit, digit_value. intro H.
  apply andb_true_iff in H as [H1 H2].
  apply Z.leb_le in H1, H2. lia.
Qed.

(** The year extractor stays between 2000 and 2099. *)
Lemma extract_year_range (path : string) (y : Z) :
  extract_year_from_filename path = Some y -> 2000 <= y <= 2099.
Proof.
  intro E.
  pose proof (match_ye_digits_spec (basename path)) as H.
  destruct (match_ye_digits (basename path)) as [g |] eqn:Eg.
  - destruct H as (d1 & d2 & _ & Hp).
    rewrite (extract_year_when_prefixed _ Hp) in E.
    assert (Hy : y = 2000 + (10 * digit_value d1 + digit_value d2))
      by congruence.
    destruct Hp as (y' & e & a & b & r & _ & _ & _ & Ha & Hb & Hd).
    pose proof (digit_value_range _ Ha). pose proof (digit_value_range _ Hb).
    lia.
  - rewrite (extract_year_when_not_prefixed _ H) in E. discriminate E.
Qed.

(** C6.  The integer coercion raises on the text inf: the float it parses
    to is infinite, [int] of it raises OverflowError, and the handler only
    catches ValueError and TypeError. *)
Theorem coerce_to_integer_inf_raises :
  forall allow_null : bool,
    coerce_to_integer (CStr "inf") allow_null
    = Raise (OverflowError "cannot convert float infinity to integer").
Proof. intros []; vm_compute; reflexivity. Qed.

Example coerce_to_integer_huge_exponent_raises :
  coerce_to_integer (CStr "1e999") true
  = Raise (OverflowError "cannot convert float infinity to integer").
Proof. vm_compute. reflexivity. Qed.

Example coerce_to_integer_12_7 :
  coerce_to_integer (CStr "12.7") true = Ok (CInt 12).
Proof. vm_compute. reflexivity. Qed.

Example coerce_to_integer_minus_12_7 :
  coerce_to_integer (CStr "-12.7") true = Ok (CInt (-12)).
Proof. vm_compute. reflexivity. Qed.

Example coerce_to_integer_abc :
  coerce_to_integer (CStr "abc") true = Ok CNone /\
  coerce_to_integer (CStr "abc") false = Ok (CInt 0).
Proof. split; vm_compute; reflexivity. Qed.

(** [int] of a finite float is the quotient, rounded toward zero, of its
    signed significand scaled by its exponent. *)
Lemma int_of_float_truncates (neg : bool) (m e : Z) :
  0 <= m ->
  int_of_float (FFin neg m e)
  = Ok (Z.quot ((if neg then - m else m) * 2 ^ Z.max e 0) (2 ^ Z.max (- e) 0)).
Proof.
  intro Hm. unfold int_of_float. f_equal.
  destruct (0 <=? e) eqn:He.
  - apply Z.leb_le in He.
    rewrite (Z.max_l e 0) by lia. rewrite (Z.max_r (- e) 0) by lia.
    cbn [Z.pow]. rewrite Z.quot_1_r. destruct neg; lia.
  - apply Z.leb_gt in He.
    rewrite (Z.max_r e 0) by lia. rewrite (Z.max_l (- e) 0) by lia.
    cbn [Z.pow]. rewrite Z.mul_1_r.
    assert (0 < 2 ^ (- e)) by (apply Z.pow_pos_nonneg; lia).
    destruct neg.
    + rewrite Z.quot_opp_l by lia. rewrite Z.quot_div_nonneg by lia. reflexivity.
    + rewrite Z.quot_div_nonneg by lia. reflexivity.
Qed.

(** The integer coercion, case by case: the null fallback for a missing or
    empty value and for one that [float] rejects or reads as NaN; the
    truncated value for one that [float] reads as a finite number. *)
Lemma coerce_to_integer_cases (value : cell) (allow_null : bool) :
  (isna value || eq_empty_str value = true ->
   coerce_to_integer value allow_null = Ok (fallback allow_null (CInt 0))) /\
  (forall msg, py_float value = Raise (ValueError msg) ->
   coerce_to_integer value allow_null = Ok (fallback allow_null (CInt 0))) /\
  (py_float value = Ok FNan ->
   coerce_to_integer value allow_null = Ok (fallback allow_null (CInt 0))) /\
  (forall neg m e, isna value || eq_empty_str value = false ->
   py_float value = Ok (FFin neg m e) -> 0 <= m ->
   coerce_to_integer value allow_null
   = Ok (CInt (Z.quot ((if neg then - m else m) * 2 ^ Z.max e 0)
                      (2 ^ Z.max (- e) 0)))).
Proof.
  unfold coerce_to_integer, fallback.
  assert (Hn : is_none value = true -> isna value = true)
    by (destruct value; cbn; congruence).
  repeat split.
  - intro H. destruct (is_none value); rewrite H; reflexivity.
  - intros msg H.
    destruct (isna value || eq_empty_str value || is_none value); [reflexivity |].
    rewrite H. reflexivity.
  - intro H.
    destruct (isna value || eq_empty_str value || is_none value); [reflexivity |].
    rewrite H. reflexivity.
  - intros neg m e Hv H Hm.
    destruct (is_none value) eqn:En.
    + rewrite (Hn eq_refl) in Hv. discriminate Hv.
    + rewrite Hv. cbn [orb]. rewrite H. cbn [bind].
      rewrite (int_of_float_truncates neg e Hm). reflexivity.
Qed.

Lemma float_of_string_cases (s : string) :
  (exists x, float_of_string s = Ok x) \/
  (exists msg, float_of_string s = Raise (ValueError msg)).
Proof.
  unfold float_of_string.
  destruct (if existsb _ _ then _ else _) as [chars |];
    [| right; eexists; reflexivity].
  destruct (read_sign _) as [neg body].
  destruct (_ || _); [left; eexists; reflexivity |].
  destruct (String.eqb _ _); [left; eexists; reflexivity |].
  destruct (read_decimal body) as [[n k] |];
    [left; eexists; reflexivity | right; eexists; reflexivity].
Qed.

(** The integer coercion on every value.  It returns the null fallback
    (None when nulls are allowed, 0 otherwise) for a missing or empty value
    and for one that [float] rejects or reads as NaN; it returns the float
    truncated toward zero for one that [float] reads as a finite number;
    and the only exception it lets through is OverflowError. *)
Theorem coerce_to_integer_by_cases :
  forall (value : cell) (allow_null : bool),
    (isna value || eq_empty_str value = true ->
     coerce_to_integer value allow_null = Ok (fallback allow_null (CInt 0))) /\
    (forall msg, py_float value = Raise (ValueError msg) ->
     coerce_to_integer value allow_null = Ok (fallback allow_null (CInt 0))) /\
    (py_float value = Ok FNan ->
     coerce_to_integer value allow_null = Ok (fallback allow_null (CInt 0))) /\
    (forall neg m e, isna value || eq_empty_str value = false ->
     py_float value = Ok (FFin neg m e) -> 0 <= m ->
     coerce_to_integer value allow_null
     = Ok (CInt (Z.quot ((if neg then - m else m) * 2 ^ Z.max e 0)
                        (2 ^ Z.max (- e) 0)))) /\
    (forall e, coerce_to_integer value allow_null = Raise e ->
               exists msg, e = OverflowError msg).
Proof.
  intros value allow_null.
  destruct (coerce_to_integer_cases value allow_null) as (H1 & H2 & H3 & H4).
  repeat (split; [assumption |]).
  intro e. unfold coerce_to_integer.
  destruct (isna value || eq_empty_str value || is_none value);
    [discriminate |].
  destruct value as [| s | z | x]; cbn [py_float].
  - cbn. discriminate.
  - destruct (float_of_string_cases s) as [[x ->] | [msg ->]]; cbn [bind];
      [| cbn; discriminate].
    destruct x as [| neg | neg m ex]; cbn; try discriminate.
    intro H. injection H as <-. eexists. reflexivity.
  - unfold float_of_int.
    destruct (float_of_ratio (z <? 0) (Z.abs z) 1) as [| neg | neg m ex];
      cbn; try discriminate.
    intro H. injection H as <-. eexists. reflexivity.
  - destruct x as [| neg | neg m ex]; cbn; try discriminate.
    intro H. injection H as <-. eexists. reflexivity.
Qed.

(** C10.  Text coercion keeps the empty string, whatever allow_null is, where
    numeric and integer coercion take their null or zero fallback; text
    coercion takes its own fallback exactly on the missing values (None,
    NaN) and returns the trimmed text of every other value. *)
Theorem coerce_to_text_keeps_empty_string :
  forall (fmt : FloatFormat) (allow_null : bool),
    coerce_to_text (CStr EmptyString) allow_null = CStr EmptyString /\
    coerce_to_numeric (CStr EmptyString) allow_null
    = Ok (fallback allow_null (CFloat float_zero)) /\
    coerce_to_integer (CStr EmptyString) allow_null
    = Ok (fallback allow_null (CInt 0)) /\
    (forall value,
       coerce_to_text value allow_null
       = if isna value then fallback allow_null (CStr EmptyString)
         else CStr (strip (py_str value))).
Proof.
  intros fmt allow_null. repeat split.
  intro value. unfold coerce_to_text, fallback.
  destruct value as [| s | z | [| neg | neg m e]]; reflexivity.
Qed.

End ParsingFacts.

(* ------------------------------------------------------------------------- *)
(** * Properties of the table operations *)

Module FrameFacts.
Import Py Frame Spec.

Lemma key_eqb_eq (a b : key) : key_eqb a b = true <-> a = b.
Proof.
  unfold key_eqb. destruct (key_eq_dec a b); split; congruence.
Qed.

Lemma key_eqb_refl (a : key) : key_eqb a a = true.
Proof. apply key_eqb_eq. reflexivity. Qed.

Lemma key_eqb_neq (a b : key) : key_eqb a b = false <-> a <> b.
Proof.
  unfold key_eqb. destruct (key_eq_dec a b); split; congruence.
Qed.

Lemma key_mem_In (k : key) (l : list key) : key_mem k l = true <-> In k l.
Proof.
  unfold key_mem. rewrite existsb_exists. split.
  - intros (x & Hx & E). apply key_eqb_eq in E. subst x. exact Hx.
  - intro H. exists k. split; [exact H | apply key_eqb_refl].
Qed.

Lemma same_key_refl (v : cell) : same_key v v = true.
Proof. apply key_eqb_refl. Qed.

Lemma same_key_sym (v w : cell) : same_key v w = same_key w v.
Proof.
  unfold same_key. destruct (key_eqb (cell_key v) (cell_key w)) eqn:E.
  - apply key_eqb_eq in E. rewrite E. symmetry. apply key_eqb_refl.
  - apply key_eqb_neq in E. symmetry. apply key_eqb_neq. congruence.
Qed.

Lemma same_key_trans (u v w : cell) :
  same_key u v = true -> same_key v w = true -> same_key u w = true.
Proof.
  unfold same_key. rewrite !key_eqb_eq. congruence.
Qed.

(** ** Column lookup *)

Lemma index_of_Some_In (c : string) (cols : list string) (i : nat) :
  index_of c cols = Some i -> In c cols.
Proof.
  revert i. induction cols as [| c' rest IH]; cbn; intros i H.
  - discriminate H.
  - destruct (String.eqb c c') eqn:E.
    + apply String.eqb_eq in E. left. congruence.
    + destruct (index_of c rest) as [j |]; [| discriminate H].
      right. exact (IH j eq_refl).
Qed.

Lemma index_of_In (c : string) (cols : list string) :
  In c cols -> exists i, index_of c cols = Some i.
Proof.
  induction cols as [| c' rest IH]; cbn; intro H.
  - contradiction.
  - destruct (String.eqb c c') eqn:E.
    + exists 0%nat. reflexivity.
    + apply String.eqb_neq in E. destruct H as [H | H]; [congruence |].
      destruct (IH H) as [i Hi]. rewrite Hi. exists (S i). reflexivity.
Qed.

Lemma index_of_None (c : string) (cols : list string) :
  index_of c cols = None <-> ~ In c cols.
Proof.
  split.
  - intros H Hin. destruct (index_of_In _ _ Hin) as [i Hi]. congruence.
  - intro H. destruct (index_of c cols) as [i |] eqn:E; [| reflexivity].
    exfalso. apply H. exact (index_of_Some_In _ _ E).
Qed.

Lemma has_column_In (c : string) (df : DataFrame) :
  has_column c df = true <-> In c (columns df).
Proof.
  unfold has_column. split.
  - destruct (index_of c (columns df)) eqn:E; [| discriminate].
    intros _. exact (index_of_Some_In _ _ E).
  - intro H. destruct (index_of_In _ _ H) as [i ->]. reflexivity.
Qed.

Lemma find_column_None (c : string) (df : DataFrame) :
  find_column c df = None <-> ~ In c (columns df).
Proof.
  unfold find_column. rewrite <- index_of_None.
  destruct (index_of c (columns df)); split; congruence.
Qed.

Lemma find_column_length (c : string) (df : DataFrame) (col : list cell) :
  find_column c df = Some col -> List.length col = len df.
Proof.
  unfold find_column, len. destruct (index_of c (columns df)); [| discriminate].
  intro H. injection H as <-. apply length_map.
Qed.

(** ** Masks *)

Section Pick.
Context {A : Type}.

Lemma pick_map (p : A -> bool) (l : list A) : pick (map p l) l = filter p l.
Proof.
  induction l as [| x l IH]; cbn; [reflexivity |].
  rewrite IH. reflexivity.
Qed.

Lemma pick_map_map {B : Type} (f : A -> B) (p : B -> bool) (l : list A) :
  pick (map p (map f l)) l = filter (fun x => p (f x)) l.
Proof. rewrite map_map. apply pick_map. Qed.

Lemma pick_In (mask : list bool) (l : list A) (x : A) :
  In x (pick mask l) -> In x l.
Proof.
  revert l. induction mask as [| b mask IH]; intros [| y l]; cbn; try tauto.
  destruct b; cbn; intros H.
  - destruct H as [H | H]; [left; exact H | right; exact (IH _ H)].
  - right. exact (IH _ H).
Qed.

Lemma length_pick_le (mask : list bool) (l : list A) :
  (List.length (pick mask l) <= List.length l)%nat.
Proof.
  revert l. induction mask as [| b mask IH]; intros [| y l]; cbn; try lia.
  specialize (IH l). destruct b; cbn; lia.
Qed.

Lemma pick_map_commute {B : Type} (f : A -> B) (mask : list bool) (l : list A) :
  pick mask (map f l) = map f (pick mask l).
Proof.
  revert l. induction mask as [| b mask IH]; intros [| y l]; cbn;
    try reflexivity.
  rewrite IH. destruct b; reflexivity.
Qed.

(** The rows that a mask keeps and the rows that its negation keeps make up
    the table. *)
Lemma length_pick_negb (mask : list bool) (l : list A) :
  List.length mask = List.length l ->
  (List.length (pick mask l) + List.length (pick (map negb mask) l)
   = List.length l)%nat.
Proof.
  revert l. induction mask as [| b mask IH]; intros [| y l]; cbn;
    try discriminate; [reflexivity |].
  intro H. injection H as H. specialize (IH l H).
  destruct b; cbn; lia.
Qed.

Lemma filter_all (p : A -> bool) (l : list A) :
  Forall (fun x => p x = true) l -> filter p l = l.
Proof.
  induction 1 as [| x l Hx _ IH]; cbn; [reflexivity |].
  rewrite Hx, IH. reflexivity.
Qed.

Lemma Forall_filter (p : A -> bool) (l : list A) :
  Forall (fun x => p x = true) (filter p l).
Proof.
  apply Forall_forall. intros x H. apply filter_In in H. tauto.
Qed.

Lemma Forall_filter_other (p q : A -> bool) (l : list A) :
  Forall (fun x => q x = true) l -> Forall (fun x => q x = true) (filter p l).
Proof.
  rewrite !Forall_forall. intros H x Hx. apply filter_In in Hx. apply H. tauto.
Qed.

End Pick.

Lemma find_column_where (c : string) (mask : list bool) (df : DataFrame) :
  find_column c (where_ mask df)
  = option_map (pick mask) (find_column c df).
Proof.
  unfold find_column, where_. cbn [columns rows].
  destruct (index_of c (columns df)); [| reflexivity].
  cbn. rewrite pick_map_commute. reflexivity.
Qed.

(** ** Selecting columns *)

Lemma indices_of_Some (cols header : list string) (idx : list nat) :
  indices_of cols header = Some idx ->
  List.length idx = List.length cols /\ (forall c, In c cols -> In c header).
Proof.
  revert idx. induction cols as [| c cols IH]; cbn; intros idx H.
  - injection H as <-. split; [reflexivity | tauto].
  - destruct (index_of c header) as [i |] eqn:Ei; [| discriminate H].
    destruct (indices_of cols header) as [l |]; [| discriminate H].
    injection H as <-. destruct (IH l eq_refl) as [Hl Hin].
    split; [cbn; congruence |].
    intros c' [<- | Hc']; [exact (index_of_Some_In _ _ Ei) | exact (Hin _ Hc')].
Qed.

Lemma indices_of_None (cols header : list string) :
  indices_of cols header = None ->
  exists c, In c cols /\ ~ In c header.
Proof.
  induction cols as [| c cols IH]; cbn; intro H.
  - discriminate H.
  - destruct (index_of c header) as [i |] eqn:Ei.
    + destruct (indices_of cols header) as [l |]; [discriminate H |].
      destruct (IH eq_refl) as (c' & Hc' & Hn).
      exists c'. split; [right; exact Hc' | exact Hn].
    + exists c. split; [left; reflexivity |].
      apply index_of_None. exact Ei.
Qed.

Lemma indices_of_all (cols header : list string) :
  (forall c, In c cols -> In c header) ->
  exists idx, indices_of cols header = Some idx.
Proof.
  intro H. destruct (indices_of cols header) as [idx |] eqn:E.
  - exists idx. reflexivity.
  - apply indices_of_None in E as (c & Hc & Hn). exfalso. exact (Hn (H c Hc)).
Qed.

(** [df[cols]] raises exactly when the table lacks one of the labels, and
    the error names the labels it lacks. *)
Lemma select_missing (cols : list string) (df : DataFrame) (c : string) :
  In c cols -> ~ In c (columns df) ->
  exists missing,
    select cols df = Raise (KeyError missing) /\
    In c missing /\
    forall m, In m missing -> In m cols /\ ~ In m (columns df).
Proof.
  intros Hc Hn. unfold select.
  destruct (indices_of cols (columns df)) as [idx |] eqn:E.
  - apply indices_of_Some in E as [_ Hall]. exfalso. exact (Hn (Hall c Hc)).
  - exists (filter (fun c => negb (has_column c df)) cols).
    split; [reflexivity |]. split.
    + apply filter_In. split; [exact Hc |].
      destruct (has_column c df) eqn:Eh; [| reflexivity].
      apply has_column_In in Eh. contradiction.
    + intros m Hm. apply filter_In in Hm as [Hm Hh]. split; [exact Hm |].
      intro Hin. apply has_column_In in Hin. rewrite Hin in Hh. discriminate Hh.
Qed.

Lemma select_present (cols : list string) (df : DataFrame) :
  (forall c, In c cols -> In c (columns df)) ->
  exists idx,
    indices_of cols (columns df) = Some idx /\
    select cols df
    = Ok {| columns := cols; rows := map (project idx) (rows df) |}.
Proof.
  intro H. destruct (indices_of_all cols (columns df) H) as [idx E].
  exists idx. split; [exact E |]. unfold select. rewrite E. reflexivity.
Qed.

(** ** Assigning a column *)

Lemma map_combine_repeat {A B C : Type} (f : A -> B -> C) (l : list A) (v : B) :
  map (fun rv => f (fst rv) (snd rv)) (combine l (repeat v (List.length l)))
  = map (fun r => f r v) l.
Proof.
  induction l as [| x l IH]; cbn; [reflexivity |]. rewrite IH. reflexivity.
Qed.

Lemma cell_at_app_last (r : list cell) (v : cell) :
  cell_at (List.length r) (r ++ [v]) = v.
Proof.
  unfold cell_at. rewrite app_nth2 by lia.
  rewrite Nat.sub_diag. reflexivity.
Qed.

Lemma assign_scalar_new (c : string) (v : cell) (df : DataFrame) :
  index_of c (columns df) = None ->
  assign_scalar c v df
  = {| columns := columns df ++ [c];
       rows := map (fun r => r ++ [v]) (rows df) |}.
Proof.
  intro E. unfold assign_scalar, assign, len. rewrite E.
  rewrite (map_combine_repeat (fun r v => r ++ [v])). reflexivity.
Qed.

Lemma last_column_of_projection (idx : list nat) (v : cell)
  (l : list (list cell)) :
  map (cell_at (List.length idx)) (map (fun r => project idx r ++ [v]) l)
  = repeat v (List.length l).
Proof.
  induction l as [| r l IH]; cbn; [reflexivity |].
  rewrite IH. f_equal.
  replace (List.length idx) with (List.length (project idx r))
    by (unfold project; apply length_map).
  apply cell_at_app_last.
Qed.

(** ** Duplicates *)

Lemma length_duplicated_from (seen ks : list key) :
  List.length (duplicated_from seen ks) = List.length ks.
Proof.
  revert seen. induction ks as [| k ks IH]; intro seen; cbn; [reflexivity |].
  destruct (key_mem k seen); cbn; rewrite IH; reflexivity.
Qed.

Lemma length_duplicated_values (col : list cell) :
  List.length (duplicated_values col) = List.length col.
Proof.
  unfold duplicated_values. rewrite length_duplicated_from. apply length_map.
Qed.

(** The mask marks position [i] exactly when its key was seen before the
    scan started or stands at an earlier position. *)
Lemma duplicated_from_nth (seen ks : list key) (i : nat) :
  (i < List.length ks)%nat ->
  (nth i (duplicated_from seen ks) false = true <->
   In (nth i ks KNone) seen \/
   exists j, (j < i)%nat /\ nth j ks KNone = nth i ks KNone).
Proof.
  revert seen i. induction ks as [| k ks IH]; intros seen i Hi; cbn in Hi.
  - lia.
  - cbn [duplicated_from].
    destruct (key_mem k seen) eqn:Ek.
    + apply key_mem_In in Ek.
      destruct i as [| i]; cbn [nth].
      * split; [intros _; left; exact Ek | reflexivity].
      * rewrite (IH seen i) by lia. split.
        -- intros [H | (j & Hj & E)]; [left; exact H |].
           right. exists (S j). split; [lia | exact E].
        -- intros [H | (j & Hj & E)]; [left; exact H |].
           destruct j as [| j]; cbn [nth] in E.
           ++ left. rewrite <- E. exact Ek.
           ++ right. exists j. split; [lia | exact E].
    + assert (Hk : ~ In k seen).
      { intro H. apply key_mem_In in H. congruence. }
      destruct i as [| i]; cbn [nth].
      * split; [discriminate |].
        intros [H | (j & Hj & _)]; [contradiction | lia].
      * rewrite (IH (k :: seen) i) by lia. split.
        -- intros [[H | H] | (j & Hj & E)].
           ++ right. exists 0%nat. split; [lia | exact H].
           ++ left. exact H.
           ++ right. exists (S j). split; [lia | exact E].
        -- intros [H | (j & Hj & E)]; [left; right; exact H |].
           destruct j as [| j]; cbn [nth] in E.
           ++ left. left. exact E.
           ++ right. exists j. split; [lia | exact E].
Qed.

(** A row is kept by [drop_duplicates] exactly when it is the first with its
    key. *)
Lemma duplicated_values_first (col : list cell) (i : nat) :
  (i < List.length col)%nat ->
  (nth i (duplicated_values col) false = false <-> first_with_key col i).
Proof.
  intro Hi. unfold duplicated_values, first_with_key.
  assert (Hn : forall n, nth n (map cell_key col) KNone = cell_key (nth n col CNone)).
  { intro n. exact (map_nth cell_key col CNone n). }
  pose proof (@duplicated_from_nth [] (map cell_key col) i) as H.
  rewrite length_map in H. specialize (H Hi).
  split.
  - intros Hf j Hj. apply key_eqb_neq. intro E.
    assert (nth i (duplicated_from [] (map cell_key col)) false = true) as Ht.
    { apply H. right. exists j. split; [exact Hj |]. rewrite !Hn. exact E. }
    congruence.
  - intro Hfirst.
    destruct (nth i (duplicated_from [] (map cell_key col)) false) eqn:E;
      [| reflexivity].
    destruct (proj1 H eq_refl) as [[] | (j & Hj & E')].
    rewrite !Hn in E'. specialize (Hfirst j Hj).
    apply key_eqb_neq in Hfirst. contradiction.
Qed.

Section KeepFirst.
Context {A : Type} (key_of : A -> key).

(** The mask computed by [duplicated], negated and applied to the rows, is
    keep-first deduplication. *)
Lemma pick_not_duplicated (seen : list key) (l : list A) :
  pick (map negb (duplicated_from seen (map key_of l))) l
  = keep_first_from key_of seen l.
Proof.
  revert seen. induction l as [| x l IH]; intro seen; cbn; [reflexivity |].
  destruct (key_mem (key_of x) seen); cbn; rewrite IH; reflexivity.
Qed.

Lemma keep_first_from_In (seen : list key) (l : list A) (x : A) :
  In x (keep_first_from key_of seen l) -> In x l /\ ~ In (key_of x) seen.
Proof.
  revert seen. induction l as [| y l IH]; intro seen; cbn; [tauto |].
  destruct (key_mem (key_of y) seen) eqn:E.
  - intro H. destruct (IH _ H). tauto.
  - intros [H | H].
    + subst y. split; [left; reflexivity |].
      intro Hin. apply key_mem_In in Hin. congruence.
    + destruct (IH _ H) as [H1 H2]. split; [right; exact H1 |].
      intro Hin. apply H2. right. exact Hin.
Qed.

(** No key is lost: every row's key is the key of a kept row, unless it was
    seen before the scan started. *)
Lemma keep_first_from_covers (seen : list key) (l : list A) (x : A) :
  In x l -> ~ In (key_of x) seen ->
  exists y, In y (keep_first_from key_of seen l) /\ key_of y = key_of x.
Proof.
  revert seen. induction l as [| z l IH]; intros seen Hx Hs; cbn.
  - contradiction.
  - destruct (key_mem (key_of z) seen) eqn:E.
    + destruct Hx as [-> | Hx].
      * apply key_mem_In in E. contradiction.
      * exact (IH seen Hx Hs).
    + destruct Hx as [-> | Hx].
      * exists x. split; [left; reflexivity | reflexivity].
      * destruct (key_eq_dec (key_of x) (key_of z)) as [Ek | Ek].
        -- exists z. split; [left; reflexivity | congruence].
        -- destruct (IH (key_of z :: seen) Hx) as (y & Hy & Ey).
           ++ intros [H | H]; congruence.
           ++ exists y. split; [right; exact Hy | exact Ey].
Qed.

(** No key appears twice among the kept rows. *)
Lemma keep_first_from_NoDup (seen : list key) (l : list A) :
  NoDup (map key_of (keep_first_from key_of seen l)).
Proof.
  revert seen. induction l as [| x l IH]; intro seen; cbn; [constructor |].
  destruct (key_mem (key_of x) seen) eqn:E; [apply IH |].
  cbn. constructor; [| apply IH].
  intro H. apply in_map_iff in H as (y & Ey & Hy).
  apply keep_first_from_In in Hy as [_ Hy]. apply Hy. left. congruence.
Qed.

(** Deduplicating again, having seen the same keys, changes nothing. *)
Lemma keep_first_from_idem (seen : list key) (l : list A) :
  keep_first_from key_of seen (keep_first_from key_of seen l)
  = keep_first_from key_of seen l.
Proof.
  revert seen. induction l as [| x l IH]; intro seen; cbn; [reflexivity |].
  destruct (key_mem (key_of x) seen) eqn:E; [apply IH |].
  cbn. rewrite E. rewrite IH. reflexivity.
Qed.

Lemma keep_first_from_Forall (P : A -> Prop) (seen : list key) (l : list A) :
  Forall P l -> Forall P (keep_first_from key_of seen l).
Proof.
  rewrite !Forall_forall. intros H x Hx.
  apply keep_first_from_In in Hx. apply H. tauto.
Qed.

End KeepFirst.

Lemma unique_keep_first (col : list cell) : unique col = keep_first cell_key col.
Proof. unfold unique, duplicated_values. apply pick_not_duplicated. Qed.

Lemma distinct_keys_NoDup (l : list cell) :
  NoDup (map cell_key l) -> distinct_keys l.
Proof.
  induction l as [| v l IH]; cbn; intro H; [exact I |].
  inversion H as [| ? ? Hv Hl]; subst. split; [| exact (IH Hl)].
  intros w Hw. apply key_eqb_neq. intro E. apply Hv. rewrite E.
  apply in_map. exact Hw.
Qed.

Lemma unique_distinct (col : list cell) : distinct_keys (unique col).
Proof.
  rewrite unique_keep_first. apply distinct_keys_NoDup.
  apply keep_first_from_NoDup.
Qed.

Lemma unique_In (col : list cell) (v : cell) : In v (unique col) -> In v col.
Proof.
  rewrite unique_keep_first. intro H.
  apply keep_first_from_In in H. tauto.
Qed.

Lemma unique_covers (col : list cell) (v : cell) :
  In v col -> key_in v (unique col).
Proof.
  intro H. rewrite unique_keep_first.
  destruct (@keep_first_from_covers _ cell_key [] col v H) as (w & Hw & E);
    [intros [] |].
  exists w. split; [exact Hw |]. apply key_eqb_eq. congruence.
Qed.

End FrameFacts.

(* ------------------------------------------------------------------------- *)
(** * Properties of the cleaning stage *)

Module CleaningFacts.
Import Py Frame Cleaning Spec FrameFacts.

Ltac run_step :=
  cbv [mbind ret when update_stats logger get_stats];
  cbn [fst snd stats log].

Lemma when_stats (b : bool) (lv : level) (msg : string) (s : env) :
  stats (snd (when b (logger lv msg) s)) = stats s.
Proof. destruct b; reflexivity. Qed.

Lemma drop_empty_rows_spec (df : DataFrame) (s : env) :
  fst (drop_empty_rows df s) = dropna_all df /\
  counters (stats (snd (drop_empty_rows df s)))
  = (total_rows (stats s),
     Z.of_nat (len df) - Z.of_nat (len (dropna_all df)),
     null_store_no_dropped (stats s), invalid_coords_dropped (stats s),
     duplicate_rows_dropped (stats s)).
Proof.
  unfold drop_empty_rows. run_step.
  destruct (0 <? Z.of_nat (len df) - Z.of_nat (len (dropna_all df)));
    split; reflexivity.
Qed.

(** C7.  When the table has no STORE_NO column, the step that drops rows
    with a missing key returns the table as it is, logs an error and appends
    one warning to the statistics object; it changes no counter and raises
    nothing. *)
Theorem drop_null_store_no_without_key_column :
  forall (df : DataFrame) (s : env),
    ~ In "STORE_NO" (columns df) ->
    drop_null_store_no df s
    = (df,
       {| stats := append_warning "STORE_NO column missing from data" (stats s);
          log := log s ++ [{| record_level := ERROR;
                              record_message :=
                                "STORE_NO column not found in DataFrame!" |}] |}).
Proof.
  intros df s H. apply find_column_None in H.
  unfold drop_null_store_no. rewrite H. reflexivity.
Qed.

Lemma drop_null_store_no_spec (df : DataFrame) (s : env) (store_no : list cell) :
  find_column "STORE_NO" df = Some store_no ->
  fst (drop_null_store_no df s) = where_ (store_no_present store_no) df /\
  counters (stats (snd (drop_null_store_no df s)))
  = (total_rows (stats s), empty_rows_dropped (stats s),
     Z.of_nat (len df)
     - Z.of_nat (len (where_ (store_no_present store_no) df)),
     invalid_coords_dropped (stats s), duplicate_rows_dropped (stats s)).
Proof.
  intro H. unfold drop_null_store_no. rewrite H. run_step.
  destruct (0 <? Z.of_nat (len df)
                 - Z.of_nat (len (where_ (store_no_present store_no) df)));
    split; reflexivity.
Qed.

Lemma drop_duplicate_store_nos_result `{FloatFormat} (df : DataFrame) (s : env)
  (store_no : list cell) :
  find_column "STORE_NO" df = Some store_no ->
  fst (drop_duplicate_store_nos df s)
  = where_ (map negb (duplicated_values store_no)) df /\
  counters (stats (snd (drop_duplicate_store_nos df s)))
  = (total_rows (stats s), empty_rows_dropped (stats s),
     null_store_no_dropped (stats s), invalid_coords_dropped (stats s),
     Z.of_nat (len df)
     - Z.of_nat (len (where_ (map negb (duplicated_values store_no)) df))).
Proof.
  intro E. unfold drop_duplicate_store_nos. rewrite E. run_step.
  destruct (Nat.ltb 0 (len (where_ (duplicated_values store_no) df)));
    split; reflexivity.
Qed.

Lemma drop_duplicate_store_nos_no_column `{FloatFormat} (df : DataFrame) (s : env) :
  find_column "STORE_NO" df = None ->
  drop_duplicate_store_nos df s = (df, s).
Proof.
  intro E. unfold drop_duplicate_store_nos. rewrite E. reflexivity.
Qed.

Lemma keeps_ret {A : Type} (a : A) : keeps_counters (ret a).
Proof. intro s. reflexivity. Qed.

Lemma keeps_logger (lv : level) (msg : string) : keeps_counters (logger lv msg).
Proof. intro s. reflexivity. Qed.

Lemma keeps_get_stats : keeps_counters get_stats.
Proof. intro s. reflexivity. Qed.

Lemma keeps_append_warning (w : string) :
  keeps_counters (update_stats (append_warning w)).
Proof. intro s. reflexivity. Qed.

Lemma keeps_mbind {A B : Type} (c : M A) (k : A -> M B) :
  keeps_counters c -> (forall a, keeps_counters (k a)) ->
  keeps_counters (mbind c k).
Proof.
  intros Hc Hk s. unfold mbind. specialize (Hc s).
  destruct (c s) as [a s1]. cbn [snd] in Hc. rewrite <- Hc. apply Hk.
Qed.

Lemma keeps_when (b : bool) (c : M unit) :
  keeps_counters c -> keeps_counters (when b c).
Proof. intro H. destruct b; [exact H | apply keeps_ret]. Qed.

Lemma keeps_for_each {A : Type} (l : list A) (body : A -> M unit) :
  (forall x, keeps_counters (body x)) -> keeps_counters (for_each l body).
Proof.
  intro H. induction l as [| x l IH]; cbn.
  - apply keeps_ret.
  - apply keeps_mbind; [apply H | intros _; exact IH].
Qed.

Create HintDb keeps.

#[local] Hint Resolve keeps_ret keeps_logger keeps_get_stats
  keeps_append_warning keeps_when keeps_for_each : keeps.

Ltac keeps :=
  repeat first
    [ apply keeps_mbind; [| intro]
    | apply keeps_when
    | apply keeps_for_each; intro
    | solve [auto with keeps] ].

Lemma null_percentage_loop_keeps `{FloatFormat} (df : DataFrame)
  (cols : list string) (acc : list (string * cell)) :
  keeps_counters (null_percentage_loop df cols acc).
Proof.
  revert acc. induction cols as [| col rest IH]; intro acc; cbn.
  - apply keeps_ret.
  - destruct (find_column col df) as [values |]; [| apply IH].
    apply keeps_mbind; [| intros _; apply IH]. keeps.
Qed.

Lemma check_data_quality_keeps `{FloatFormat} (df : DataFrame) :
  keeps_counters (check_data_quality df).
Proof.
  unfold check_data_quality.
  apply keeps_mbind; [apply null_percentage_loop_keeps | intro pcts].
  destruct (find_column "CHAIN" df), (find_column "GEOSTATE" df); keeps.
Qed.

Lemma log_summary_keeps : keeps_counters log_summary.
Proof. unfold log_summary. keeps. Qed.

(** What the cleaning steps return and count. *)
Lemma cleaning_steps_spec `{FloatFormat} (df out : DataFrame) (s sf : env) :
  cleaning_steps df s = (out, sf) ->
  let d1 := dropna_all df in
  let d2 := null_step d1 in
  let d3 := dup_step d2 in
  out = d3 /\
  counters (stats sf)
  = (total_rows (stats s),
     Z.of_nat (len df) - Z.of_nat (len d1),
     match find_column "STORE_NO" d1 with
     | Some _ => Z.of_nat (len d1) - Z.of_nat (len d2)
     | None => null_store_no_dropped (stats s)
     end,
     invalid_coords_dropped (stats s),
     match find_column "STORE_NO" d2 with
     | Some _ => Z.of_nat (len d2) - Z.of_nat (len d3)
     | None => duplicate_rows_dropped (stats s)
     end).
Proof.
  intros Run d1 d2 d3. unfold cleaning_steps in Run.
  unfold mbind at 1 in Run. cbn [get_stats] in Run.
  unfold mbind at 1 in Run. cbn [logger] in Run.
  set (s0 := {| stats := stats s; log := _ |}) in Run.
  unfold mbind at 1 in Run.
  destruct (drop_empty_rows_spec df s0) as [T1 C1].
  destruct (drop_empty_rows df s0) as [t1 s1]. cbn [fst snd] in T1, C1.
  subst t1. fold d1 in Run.
  unfold mbind at 1 in Run.
  assert (T2 : fst (drop_null_store_no d1 s1) = d2 /\
               counters (stats (snd (drop_null_store_no d1 s1)))
               = (total_rows (stats s),
                  Z.of_nat (len df) - Z.of_nat (len d1),
                  match find_column "STORE_NO" d1 with
                  | Some _ => Z.of_nat (len d1) - Z.of_nat (len d2)
                  | None => null_store_no_dropped (stats s)
                  end,
                  invalid_coords_dropped (stats s),
                  duplicate_rows_dropped (stats s))).
  { unfold d2, null_step.
    destruct (find_column "STORE_NO" d1) as [c |] eqn:E.
    - destruct (drop_null_store_no_spec d1 s1 E) as [Ta Ca].
      split; [exact Ta |]. rewrite Ca.
      unfold counters in C1. injection C1 as -> -> _ -> ->.
      reflexivity.
    - unfold drop_null_store_no. rewrite E. run_step.
      split; [reflexivity |]. exact C1. }
  destruct T2 as [T2 C2].
  destruct (drop_null_store_no d1 s1) as [t2 s2]. cbn [fst snd] in T2, C2.
  subst t2.
  unfold mbind at 1 in Run.
  assert (T3 : fst (drop_duplicate_store_nos d2 s2) = d3 /\
               counters (stats (snd (drop_duplicate_store_nos d2 s2)))
               = (total_rows (stats s),
                  Z.of_nat (len df) - Z.of_nat (len d1),
                  match find_column "STORE_NO" d1 with
                  | Some _ => Z.of_nat (len d1) - Z.of_nat (len d2)
                  | None => null_store_no_dropped (stats s)
                  end,
                  invalid_coords_dropped (stats s),
                  match find_column "STORE_NO" d2 with
                  | Some _ => Z.of_nat (len d2) - Z.of_nat (len d3)
                  | None => duplicate_rows_dropped (stats s)
                  end)).
  { unfold d3, dup_step.
    destruct (find_column "STORE_NO" d2) as [c |] eqn:E.
    - destruct (drop_duplicate_store_nos_result d2 s2 E) as [Ta Ca].
      split; [exact Ta |]. rewrite Ca.
      unfold counters in C2. injection C2 as -> -> -> -> _.
      reflexivity.
    - rewrite (drop_duplicate_store_nos_no_column d2 s2 E).
      split; [reflexivity |]. exact C2. }
  destruct T3 as [T3 C3].
  destruct (drop_duplicate_store_nos d2 s2) as [t3 s3]. cbn [fst snd] in T3, C3.
  subst t3.
  unfold mbind at 1 in Run.
  pose proof (check_data_quality_keeps d3 s3) as K4.
  destruct (check_data_quality d3 s3) as [m s4]. cbn [snd] in K4.
  unfold mbind at 1 in Run.
  pose proof (log_summary_keeps s4) as K5.
  destruct (log_summary s4) as [u s5]. cbn [snd] in K5.
  cbv [ret] in Run. injection Run as <- <-.
  split; [reflexivity |].
  rewrite K5, K4. exact C3.
Qed.

(** The three steps compute the cleaned table of the specification. *)
Lemma steps_cleaned (df : DataFrame) :
  dup_step (null_step (dropna_all df)) = cleaned df.
Proof.
  unfold cleaned, dup_step, null_step, dropna_all, where_, find_column.
  cbn [columns rows].
  destruct (index_of "STORE_NO" (columns df)) as [i |] eqn:E;
    cbn [columns rows]; rewrite ?E; cbn [columns rows].
  - rewrite pick_map. unfold store_no_present.
    rewrite pick_map_map. unfold duplicated_values. rewrite map_map.
    rewrite pick_not_duplicated. reflexivity.
  - rewrite pick_map. reflexivity.
Qed.

Lemma cleaned_rows_nonempty (df : DataFrame) :
  Forall (fun r => negb (forallb isna r) = true) (rows (cleaned df)).
Proof.
  unfold cleaned.
  destruct (index_of "STORE_NO" (columns df)) as [i |]; cbn [rows].
  - apply keep_first_from_Forall. apply Forall_filter_other.
    apply Forall_filter.
  - apply Forall_filter.
Qed.

Lemma columns_cleaned (df : DataFrame) : columns (cleaned df) = columns df.
Proof.
  unfold cleaned. destruct (index_of "STORE_NO" (columns df)); reflexivity.
Qed.

(** An already clean table has no empty row left to drop... *)
Lemma dropna_all_cleaned (df : DataFrame) :
  dropna_all (cleaned df) = cleaned df.
Proof.
  unfold dropna_all, where_. rewrite pick_map.
  rewrite (filter_all _ (cleaned_rows_nonempty df)).
  destruct (cleaned df); reflexivity.
Qed.

Lemma rows_cleaned_keyed (df : DataFrame) (i : nat) :
  index_of "STORE_NO" (columns df) = Some i ->
  rows (cleaned df)
  = keep_first (fun r => cell_key (cell_at i r))
      (filter (fun r => negb (isna (cell_at i r))
                        && negb (eq_empty_str (cell_at i r)))
              (filter (fun r => negb (forallb isna r)) (rows df))).
Proof. intro E. unfold cleaned. rewrite E. reflexivity. Qed.

Lemma find_column_cleaned (df : DataFrame) (c : list cell) :
  find_column "STORE_NO" (cleaned df) = Some c ->
  exists i, index_of "STORE_NO" (columns df) = Some i /\
            c = map (cell_at i) (rows (cleaned df)).
Proof.
  unfold find_column. rewrite columns_cleaned.
  destruct (index_of "STORE_NO" (columns df)) as [i |]; [| discriminate].
  intro H. injection H as <-. exists i. split; reflexivity.
Qed.

Lemma where_all (mask : list bool) (df : DataFrame) :
  pick mask (rows df) = rows df -> where_ mask df = df.
Proof. unfold where_. intros ->. destruct df; reflexivity. Qed.

(** ... no row with a missing key ... *)
Lemma null_step_cleaned (df : DataFrame) : null_step (cleaned df) = cleaned df.
Proof.
  unfold null_step.
  destruct (find_column "STORE_NO" (cleaned df)) as [c |] eqn:E;
    [| reflexivity].
  apply find_column_cleaned in E as (i & Ei & ->).
  apply where_all. unfold store_no_present. rewrite pick_map_map.
  apply filter_all. rewrite (rows_cleaned_keyed df Ei).
  apply keep_first_from_Forall. apply Forall_filter.
Qed.

(** ... and no duplicate key. *)
Lemma dup_step_cleaned (df : DataFrame) : dup_step (cleaned df) = cleaned df.
Proof.
  unfold dup_step.
  destruct (find_column "STORE_NO" (cleaned df)) as [c |] eqn:E;
    [| reflexivity].
  apply find_column_cleaned in E as (i & Ei & ->).
  apply where_all. unfold duplicated_values. rewrite map_map.
  rewrite pick_not_duplicated. rewrite (rows_cleaned_keyed df Ei).
  apply keep_first_from_idem.
Qed.

Lemma cleaned_idempotent (df : DataFrame) : cleaned (cleaned df) = cleaned df.
Proof.
  rewrite <- (steps_cleaned (cleaned df)).
  rewrite dropna_all_cleaned, null_step_cleaned, dup_step_cleaned.
  reflexivity.
Qed.

Lemma clean_excel_data_table `{FloatFormat} (df : DataFrame)
  (log0 : list log_record) :
  fst (fst (clean_excel_data df log0)) = cleaned df.
Proof.
  unfold clean_excel_data.
  destruct (cleaning_steps df _) as [out sf] eqn:Run.
  apply cleaning_steps_spec in Run as [-> _].
  cbn [fst]. apply steps_cleaned.
Qed.

(** The cleaning pipeline returns the cleaned table of the specification:
    the rows that are not entirely missing, then (with a STORE_NO column)
    those whose key is neither missing nor empty, then the first row of each
    key, in the original order and under the original header. *)
Theorem clean_excel_data_returns_cleaned :
  forall (fmt : FloatFormat) (df : DataFrame) (log0 : list log_record),
    fst (fst (clean_excel_data df log0)) = cleaned df.
Proof. intros fmt df log0. apply clean_excel_data_table. Qed.

Example clean_excel_data_sample :
  let raw :=
    {| columns := ["STORE_NO"; "CHAIN"];
       rows := [ [CFloat FNan; CFloat FNan];
                 [CStr EmptyString; CStr "Beta Diner"];
                 [CStr "A"; CStr "Alpha Grill"];
                 [CStr "A"; CStr "Alpha Grill 2"] ] |} in
  let '(df, st, _) := @clean_excel_data Samples.sample_format raw [] in
  rows df = [ [CStr "A"; CStr "Alpha Grill"] ] /\
  counters st = (4, 1, 1, 0, 1) /\
  get_final_count st = 1.
Proof. vm_compute. repeat split. Qed.

(** C4.  Cleaning is idempotent: cleaning the table that a first run of
    the full pipeline produced returns that table unchanged, and the second
    run counts no dropped row of any kind. *)
Theorem clean_excel_data_idempotent :
  forall (fmt : FloatFormat) (df : DataFrame) (log0 : list log_record),
    let '(df1, stats1, log1) := clean_excel_data df log0 in
    let '(df2, stats2, log2) := clean_excel_data df1 log1 in
    df2 = df1 /\
    empty_rows_dropped stats2 = 0 /\
    null_store_no_dropped stats2 = 0 /\
    duplicate_rows_dropped stats2 = 0 /\
    total_rows stats2 = Z.of_nat (len df1) /\
    get_final_count stats2 = Z.of_nat (len df1).
Proof.
  intros fmt df log0.
  pose proof (clean_excel_data_table df log0) as T1.
  destruct (clean_excel_data df log0) as [[df1 stats1] log1].
  cbn [fst] in T1. subst df1.
  unfold clean_excel_data.
  destruct (cleaning_steps (cleaned df) _) as [out sf] eqn:Run.
  apply cleaning_steps_spec in Run as [-> C].
  cbn [stats] in C.
  rewrite dropna_all_cleaned, null_step_cleaned, dup_step_cleaned in C.
  unfold counters in C. injection C as Ht He Hn Hi Hd.
  cbn in Ht, Hi.
  assert (Hn' : null_store_no_dropped (stats sf) = 0).
  { rewrite Hn. destruct (find_column "STORE_NO" (cleaned df)); cbn; lia. }
  assert (Hd' : duplicate_rows_dropped (stats sf) = 0).
  { rewrite Hd. destruct (find_column "STORE_NO" (cleaned df)); cbn; lia. }
  rewrite dropna_all_cleaned, null_step_cleaned, dup_step_cleaned.
  unfold get_final_count. rewrite Hn', Hd', Hi, Ht, He.
  repeat split; lia.
Qed.

Lemma firstn_In {A : Type} (n : nat) (l : list A) (x : A) :
  In x (firstn n l) -> In x l.
Proof.
  revert n. induction l as [| y l IH]; intros [| n]; cbn; try tauto.
  intros [H | H]; [left; exact H | right; exact (IH n H)].
Qed.

Lemma firstn_distinct_keys (n : nat) (l : list cell) :
  distinct_keys l -> distinct_keys (firstn n l).
Proof.
  revert n. induction l as [| v l IH]; intros [| n]; cbn; try tauto.
  intros [Hv Hl]. split; [| exact (IH n Hl)].
  intros w Hw. apply Hv. exact (firstn_In _ _ _ Hw).
Qed.

(** The duplicate-key step, computed: the table it returns and the state it
    leaves, by whether any row is a duplicate. *)
Lemma drop_duplicate_store_nos_eq `{FloatFormat} (df : DataFrame) (s : env)
  (store_no : list cell) :
  find_column "STORE_NO" df = Some store_no ->
  let dup := duplicated_values store_no in
  let n := List.length (pick dup (rows df)) in
  let out := where_ (map negb dup) df in
  let count := Z.of_nat (len df) - Z.of_nat (len out) in
  drop_duplicate_store_nos df s
  = (out,
     if Nat.ltb 0 n
     then {| stats :=
               set_duplicate_rows_dropped count
                 (append_warning
                    (str_of_nat n +++ " duplicate STORE_NO values found")
                    (stats s));
             log :=
               (log s
                ++ [{| record_level := WARNING;
                       record_message := "Found " +++ str_of_nat n
                                         +++ " duplicate STORE_NO values" |}])
               ++ [{| record_level := WARNING;
                      record_message :=
                        "Example duplicates: "
                        +++ join ", "
                              (map py_str
                                 (firstn 5 (unique (pick dup store_no)))) |}] |}
     else {| stats := set_duplicate_rows_dropped count (stats s);
             log := log s |}).
Proof.
  intros E dup n out count.
  unfold drop_duplicate_store_nos. rewrite E. run_step.
  change (len (where_ (duplicated_values store_no) df)) with n.
  destruct (Nat.ltb 0 n); reflexivity.
Qed.

(** C3.  On a table with a STORE_NO column, the duplicate-key step keeps a
    row exactly when no earlier row has its key (so the first row of every
    key stays and every later one goes, in the original order), sets the
    duplicate counter of the statistics to the number of rows it dropped,
    and, when it dropped any, logs at warning level a sample of at most five
    distinct keys of dropped rows and appends the count to the warnings of
    the statistics. *)
Theorem drop_duplicate_store_nos_keeps_first :
  forall (fmt : FloatFormat) (df : DataFrame) (s : env) (store_no : list cell),
    find_column "STORE_NO" df = Some store_no ->
    let '(out, s') := drop_duplicate_store_nos df s in
    let dup := duplicated_values store_no in
    let n_dropped := List.length (pick dup (rows df)) in
    let sample := firstn 5 (unique (pick dup store_no)) in
    columns out = columns df /\
    rows out = pick (map negb dup) (rows df) /\
    List.length dup = len df /\
    (forall i, (i < len df)%nat ->
               (nth i dup false = false <-> first_with_key store_no i)) /\
    duplicate_rows_dropped (stats s') = Z.of_nat n_dropped /\
    (len out + n_dropped = len df)%nat /\
    (total_rows (stats s'), empty_rows_dropped (stats s'),
     null_store_no_dropped (stats s'), invalid_coords_dropped (stats s'))
    = (total_rows (stats s), empty_rows_dropped (stats s),
       null_store_no_dropped (stats s), invalid_coords_dropped (stats s)) /\
    (List.length sample <= 5)%nat /\
    (forall k, In k sample -> In k (pick dup store_no)) /\
    distinct_keys sample /\
    (n_dropped = 0%nat ->
     warnings (stats s') = warnings (stats s) /\ log s' = log s) /\
    (n_dropped <> 0%nat ->
     warnings (stats s')
     = warnings (stats s)
       ++ [str_of_nat n_dropped +++ " duplicate STORE_NO values found"] /\
     log s'
     = log s
       ++ [{| record_level := WARNING;
              record_message := "Found " +++ str_of_nat n_dropped
                                +++ " duplicate STORE_NO values" |};
           {| record_level := WARNING;
              record_message := "Example duplicates: "
                                +++ join ", " (map py_str sample) |}]).
Proof.
  intros fmt df s store_no E.
  rewrite (drop_duplicate_store_nos_eq df s E).
  cbv zeta.
  set (dup := duplicated_values store_no).
  set (n := List.length (pick dup (rows df))).
  assert (Hcol : List.length store_no = len df)
    by exact (find_column_length _ _ E).
  assert (Hlen : List.length dup = len df).
  { unfold dup. rewrite length_duplicated_values. exact Hcol. }
  assert (Hsum : (n + len (where_ (map negb dup) df) = len df)%nat).
  { unfold n, len, where_. cbn [rows]. apply length_pick_negb. exact Hlen. }
  split; [reflexivity |].
  split; [reflexivity |].
  split; [exact Hlen |].
  split.
  { intros i Hi. apply duplicated_values_first. rewrite Hcol. exact Hi. }
  split.
  { destruct (Nat.ltb 0 n); cbn [stats set_duplicate_rows_dropped
                                  duplicate_rows_dropped]; lia. }
  split; [lia |].
  split.
  { destruct (Nat.ltb 0 n); reflexivity. }
  split; [apply firstn_le_length |].
  split.
  { intros k Hk. apply unique_In. exact (firstn_In _ _ _ Hk). }
  split.
  { apply firstn_distinct_keys. apply unique_distinct. }
  split.
  - intro Hn. rewrite Hn. split; reflexivity.
  - intro Hn. destruct n as [| n']; [contradiction |].
    change (Nat.ltb 0 (S n')) with true. cbn [stats log].
    split; [reflexivity |].
    rewrite <- app_assoc. reflexivity.
Qed.

Lemma drop_null_store_no_without_key_column_witness :
  ~ In "STORE_NO" (columns Samples.no_key_column) /\
  fst (drop_null_store_no Samples.no_key_column Samples.fresh_env)
  = Samples.no_key_column /\
  warnings (stats (snd (drop_null_store_no Samples.no_key_column
                                           Samples.fresh_env)))
  = ["STORE_NO column missing from data"].
Proof.
  assert (H : ~ In "STORE_NO" (columns Samples.no_key_column)).
  { cbn. intros [H | [H | []]]; discriminate H. }
  split; [exact H |].
  rewrite (@drop_null_store_no_without_key_column
             Samples.no_key_column Samples.fresh_env H).
  split; reflexivity.
Defined.

Lemma drop_duplicate_store_nos_keeps_first_witness :
  find_column "STORE_NO" Samples.repeated_store
  = Some [CStr "A"; CStr "B"; CStr "A"] /\
  rows (fst (@drop_duplicate_store_nos Samples.sample_format
               Samples.repeated_store Samples.fresh_env))
  = [ [CStr "A"; CStr "Alpha Grill"]; [CStr "B"; CStr "Beta Diner"] ] /\
  duplicate_rows_dropped
    (stats (snd (@drop_duplicate_store_nos Samples.sample_format
                   Samples.repeated_store Samples.fresh_env)))
  = 1.
Proof.
  split; [reflexivity |].
  pose proof (@drop_duplicate_store_nos_keeps_first
                Samples.sample_format Samples.repeated_store
                Samples.fresh_env [CStr "A"; CStr "B"; CStr "A"]
                eq_refl) as H.
  destruct (@drop_duplicate_store_nos Samples.sample_format
              Samples.repeated_store Samples.fresh_env) as [out s'].
  cbv zeta in H. destruct H as (_ & Hrows & _ & _ & Hcount & _).
  cbn [fst snd]. rewrite Hrows, Hcount. split; reflexivity.
Defined.

End CleaningFacts.

(* ------------------------------------------------------------------------- *)
(** * Properties of the splitter *)

Module SplitFacts.
Import Py Frame Spec FrameFacts Etl.

(** C9.  When the cleaned table lacks a column listed for locations or for
    trends (YEAR is not among them), the splitter raises KeyError, whose
    labels are listed columns that the table lacks; it does not go on with
    the columns that exist. *)
Theorem split_raises_on_missing_column :
  forall (df : DataFrame) (year : Z) (c : string),
    In c Mapping.get_location_columns \/ In c Mapping.get_trend_columns ->
    ~ In c (columns df) ->
    exists missing,
      split_location_and_trend_data df year = Raise (KeyError missing) /\
      missing <> [] /\
      forall m, In m missing ->
                (In m Mapping.get_location_columns
                 \/ In m Mapping.get_trend_columns)
                /\ ~ In m (columns df).
Proof.
  intros df year c Hc Hn. unfold split_location_and_trend_data.
  destruct (select Mapping.get_location_columns df) as [loc | e] eqn:El.
  - destruct Hc as [Hc | Hc].
    + destruct (select_missing _ df c Hc Hn) as (missing & E & _).
      congruence.
    + destruct (select_missing _ df c Hc Hn) as (missing & E & Hin & Hall).
      exists missing. cbn [bind]. rewrite E. cbn [bind].
      split; [reflexivity |]. split.
      * intro H. rewrite H in Hin. exact Hin.
      * intros m Hm. destruct (Hall m Hm). tauto.
  - pose proof El as El'. unfold select in El'.
    destruct (indices_of Mapping.get_location_columns (columns df)) eqn:Ei;
      [discriminate El' |]. clear El'.
    apply indices_of_None in Ei as (c' & Hc' & Hn').
    destruct (select_missing _ df c' Hc' Hn') as (missing & E & Hin & Hall).
    exists missing. rewrite E in El. injection El as <-. cbn [bind].
    split; [reflexivity |]. split.
    + intro H. rewrite H in Hin. exact Hin.
    + intros m Hm. destruct (Hall m Hm). tauto.
Qed.

Lemma year_is_not_listed :
  ~ In "YEAR" Mapping.get_location_columns /\
  ~ In "YEAR" Mapping.get_trend_columns.
Proof.
  split; intro H; cbn in H;
    repeat (destruct H as [H | H]; [discriminate H |]); exact H.
Qed.

(** C2.  On a table that has every listed column, and for every year, the
    splitter returns a location table whose STORE_NO column is the keep-first
    deduplication of the input's (every input key is there, none twice, and
    nothing else), and a trend table with one row per input row, each
    carrying the year in its YEAR column. *)
Theorem split_keeps_keys_and_stamps_year :
  forall (df : DataFrame) (year : Z),
    (forall c, In c Mapping.get_location_columns
               \/ In c Mapping.get_trend_columns -> In c (columns df)) ->
    exists location_df trend_df store_no,
      split_location_and_trend_data df year = Ok (location_df, trend_df) /\
      find_column "STORE_NO" df = Some store_no /\
      find_column "STORE_NO" location_df
      = Some (keep_first cell_key store_no) /\
      (forall v, In v store_no -> key_in v (keep_first cell_key store_no)) /\
      (forall v, In v (keep_first cell_key store_no) -> In v store_no) /\
      distinct_keys (keep_first cell_key store_no) /\
      len trend_df = len df /\
      find_column "YEAR" trend_df = Some (repeat (CInt year) (len df)).
Proof.
  intros df year Hall. unfold split_location_and_trend_data.
  destruct (select_present Mapping.get_location_columns df) as (li & Eli & El).
  { intros c Hc. apply Hall. left. exact Hc. }
  destruct (select_present Mapping.get_trend_columns df) as (ti & Eti & Et).
  { intros c Hc. apply Hall. right. exact Hc. }
  rewrite El, Et. cbn [bind].
  (* the key column of the input and of the location projection *)
  assert (Hi : exists i rest, li = i :: rest
                              /\ index_of "STORE_NO" (columns df) = Some i).
  { change Mapping.get_location_columns
      with ("STORE_NO" :: tl Mapping.get_location_columns) in Eli.
    cbn [indices_of] in Eli.
    destruct (index_of "STORE_NO" (columns df)) as [i |]; [| discriminate Eli].
    destruct (indices_of _ (columns df)) as [rest |]; [| discriminate Eli].
    injection Eli as <-. exists i, rest. split; reflexivity. }
  destruct Hi as (i & rest & -> & Ei).
  set (store_no := map (cell_at i) (rows df)).
  assert (Ecol : column "STORE_NO"
                   {| columns := Mapping.get_location_columns;
                      rows := map (project (i :: rest)) (rows df) |}
                 = Ok store_no).
  { unfold column, find_column. cbn [columns rows].
    change (index_of "STORE_NO" Mapping.get_location_columns) with (Some 0%nat).
    cbv beta iota. rewrite map_map. reflexivity. }
  unfold drop_duplicates, duplicated. rewrite Ecol. cbn [bind].
  eexists. eexists. exists store_no.
  split; [reflexivity |].
  split; [unfold find_column; rewrite Ei; reflexivity |].
  split.
  { rewrite find_column_where.
    unfold column in Ecol.
    destruct (find_column "STORE_NO" _) as [col |]; [| discriminate Ecol].
    injection Ecol as ->. cbn [option_map].
    rewrite <- unique_keep_first. reflexivity. }
  rewrite <- unique_keep_first.
  split; [apply unique_covers |].
  split; [apply unique_In |].
  split; [apply unique_distinct |].
  (* the trend table *)
  rewrite assign_scalar_new by reflexivity. cbn [columns rows].
  split.
  { unfold len. cbn [rows]. rewrite !length_map. reflexivity. }
  unfold find_column. cbn [columns rows].
  change (index_of "YEAR" (Mapping.get_trend_columns ++ ["YEAR"]))
    with (Some (List.length Mapping.get_trend_columns)).
  apply indices_of_Some in Eti as [Hlen _]. rewrite <- Hlen.
  rewrite (map_map (project ti) (fun r => r ++ [CInt year])).
  rewrite last_column_of_projection. reflexivity.
Qed.

Lemma split_raises_on_missing_column_witness :
  In "CHAIN_NO" Mapping.get_location_columns /\
  ~ In "CHAIN_NO" (columns Samples.repeated_store) /\
  exists missing,
    split_location_and_trend_data Samples.repeated_store 2024
    = Raise (KeyError missing).
Proof.
  assert (H1 : In "CHAIN_NO" Mapping.get_location_columns)
    by (right; left; reflexivity).
  assert (H2 : ~ In "CHAIN_NO" (columns Samples.repeated_store)).
  { cbn. intros [H | [H | []]]; discriminate H. }
  split; [exact H1 |]. split; [exact H2 |].
  destruct (@split_raises_on_missing_column Samples.repeated_store 2024
              "CHAIN_NO" (or_introl H1) H2) as (missing & E & _).
  exists missing. exact E.
Defined.

Lemma full_table_has_listed_columns (c : string) :
  In c Mapping.get_location_columns \/ In c Mapping.get_trend_columns ->
  In c (columns Samples.full_table).
Proof.
  intro H. change (columns Samples.full_table)
    with (Mapping.get_location_columns ++ tl Mapping.get_trend_columns).
  apply in_or_app. destruct H as [H | H]; [left; exact H |].
  change Mapping.get_trend_columns
    with ("STORE_NO" :: tl Mapping.get_trend_columns) in H.
  destruct H as [<- | H]; [left; left; reflexivity | right; exact H].
Defined.

Lemma split_keeps_keys_and_stamps_year_witness :
  exists location_df trend_df,
    split_location_and_trend_data Samples.full_table 2024
    = Ok (location_df, trend_df) /\
    find_column "STORE_NO" location_df = Some [CStr "A"; CStr "B"] /\
    find_column "YEAR" trend_df = Some [CInt 2024; CInt 2024; CInt 2024].
Proof.
  destruct (@split_keeps_keys_and_stamps_year Samples.full_table 2024
              full_table_has_listed_columns)
    as (l & t & store_no & E & Ein & Eout & _ & _ & _ & _ & Eyear).
  exists l, t. split; [exact E |].
  vm_compute in Ein. injection Ein as <-.
  split; [exact Eout | exact Eyear].
Defined.

End SplitFacts.

(* ------------------------------------------------------------------------- *)
(** * Properties of the loader *)

Module LoaderFacts.
Import Py Frame Spec FrameFacts Loader Etl.

Lemma cell_key_none (v : cell) : cell_key v = KNone -> v = CNone.
Proof.
  destruct v as [| s | z | [| neg | neg m e]]; cbn; try discriminate;
    [reflexivity | |];
    unfold num_key;
    match goal with
    | |- context [match ?m with Z0 => _ | Zpos _ => _ | Zneg _ => _ end] =>
        destruct m as [| p | p]; try discriminate;
        destruct (odd_part p 0) eqn:?; try discriminate
    end.
  - destruct (odd_part p e). discriminate.
Qed.

Lemma cell_key_nan (v : cell) : cell_key v = KNan -> isna v = true.
Proof.
  destruct v as [| s | z | [| neg | neg m e]]; cbn; try discriminate;
    try reflexivity;
    unfold num_key;
    match goal with
    | |- context [match ?m with Z0 => _ | Zpos _ => _ | Zneg _ => _ end] =>
        destruct m as [| p | p]; try discriminate
    end.
  - destruct (odd_part p 0). discriminate.
  - destruct (odd_part p e). discriminate.
Qed.

Lemma sql_eq_true (a b : cell) :
  sql_eq a b = true <->
  is_none a = false /\ is_none b = false /\ same_key a b = true.
Proof.
  unfold sql_eq. rewrite !andb_true_iff, !negb_true_iff. tauto.
Qed.

(** ** Records *)

Lemma field_set_field_other (c k : string) (v : cell) (r : dbrow) :
  c <> k -> field k (set_field c v r) = field k r.
Proof.
  intro Hck. induction r as [| [k' w] r IH]; cbn.
  - destruct (String.eqb k c) eqn:E; [| reflexivity].
    apply String.eqb_eq in E. congruence.
  - destruct (String.eqb c k') eqn:E; cbn.
    + apply String.eqb_eq in E. subst k'.
      destruct (String.eqb k c) eqn:E'; [| reflexivity].
      apply String.eqb_eq in E'. congruence.
    + destruct (String.eqb k k'); [reflexivity | exact IH].
Qed.

Lemma field_update_other (k : string) (cols : list string)
  (incoming r : dbrow) :
  ~ In k cols ->
  field k (fold_left (fun acc c => set_field c (field c incoming) acc) cols r)
  = field k r.
Proof.
  revert r. induction cols as [| c cols IH]; intros r Hk; cbn.
  - reflexivity.
  - rewrite IH by (intro H; apply Hk; right; exact H).
    apply field_set_field_other. intro E. apply Hk. left. exact E.
Qed.

Section Upsert.
Variables (update_cols : list string).
Hypothesis key_not_updated : ~ In "store_no" update_cols.

Let upsert := upsert_row ["store_no"] update_cols.

(** After a row is upserted, the table holds a record with its key. *)
Lemma upsert_row_stores (incoming : dbrow) (table : list dbrow) :
  exists stored,
    In stored (upsert incoming table) /\
    same_key (field "store_no" stored) (field "store_no" incoming) = true.
Proof.
  induction table as [| r table IH]; cbn.
  - exists incoming. split; [left; reflexivity | apply same_key_refl].
  - rewrite andb_true_r.
    destruct (sql_eq (field "store_no" r) (field "store_no" incoming)) eqn:E.
    + eexists. split; [left; reflexivity |].
      rewrite field_update_other by exact key_not_updated.
      apply sql_eq_true in E. tauto.
    + destruct IH as (stored & Hin & Hk).
      exists stored. split; [right; exact Hin | exact Hk].
Qed.

(** An upsert keeps the key of every record that the table held. *)
Lemma upsert_row_keeps (incoming : dbrow) (table : list dbrow) (r : dbrow) :
  In r table ->
  exists r', In r' (upsert incoming table) /\
             field "store_no" r' = field "store_no" r.
Proof.
  induction table as [| r0 table IH]; cbn; intro Hr; [contradiction |].
  rewrite andb_true_r.
  destruct (sql_eq (field "store_no" r0) (field "store_no" incoming)) eqn:E.
  - destruct Hr as [<- | Hr].
    + eexists. split; [left; reflexivity |].
      apply field_update_other. exact key_not_updated.
    + exists r. split; [right; exact Hr | reflexivity].
  - destruct Hr as [<- | Hr].
    + exists r0. split; [left; reflexivity | reflexivity].
    + destruct (IH Hr) as (r' & Hin & Hk).
      exists r'. split; [right; exact Hin | exact Hk].
Qed.

Lemma upsert_rows_keeps (columns : list string) (values : list (list cell))
  (table : list dbrow) (r : dbrow) :
  In r table ->
  exists r',
    In r' (upsert_rows ["store_no"] update_cols columns values table) /\
    field "store_no" r' = field "store_no" r.
Proof.
  unfold upsert_rows. revert table r.
  induction values as [| vals values IH]; intros table r Hr; cbn.
  - exists r. split; [exact Hr | reflexivity].
  - destruct (upsert_row_keeps (combine columns vals) table r Hr)
      as (r1 & Hin1 & Hk1).
    destruct (IH _ r1 Hin1) as (r2 & Hin2 & Hk2).
    exists r2. split; [exact Hin2 | congruence].
Qed.

(** After a batch is upserted, the table holds a record for the key of
    every row of the batch. *)
Lemma upsert_rows_stores (columns : list string) (values : list (list cell))
  (table : list dbrow) (vals : list cell) :
  In vals values ->
  exists stored,
    In stored (upsert_rows ["store_no"] update_cols columns values table) /\
    same_key (field "store_no" stored)
             (field "store_no" (combine columns vals)) = true.
Proof.
  unfold upsert_rows. revert table.
  induction values as [| v0 values IH]; intros table Hin; cbn.
  - contradiction.
  - destruct Hin as [-> | Hin].
    + destruct (upsert_row_stores (combine columns vals) table)
        as (s1 & Hs1 & Hk1).
      destruct (upsert_rows_keeps columns values _ s1 Hs1) as (s2 & Hs2 & Hk2).
      exists s2. split; [exact Hs2 |]. rewrite Hk2. exact Hk1.
    + apply IH. exact Hin.
Qed.

End Upsert.

(** ** The steps of a load *)

Lemma connect_ok (server c0 : connection) (u : unit) :
  connect server = (c0, Ok u) ->
  committed c0 = committed server /\ pending c0 = committed server.
Proof.
  unfold connect, lbind, request, lraise.
  destruct (faults server) as [| [] rest]; intro H;
    try discriminate H; injection H as <- _; split; reflexivity.
Qed.

(** When the location upsert returns, nothing is left uncommitted, the trend
    table is as it was, and every row of a non-empty batch has a record. *)
Lemma upsert_locations_ok (df : DataFrame) (c0 c1 : connection) (n : Z * Z) :
  upsert_locations df c0 = (c1, Ok n) ->
  pending c0 = committed c0 ->
  pending c1 = committed c1 /\
  restaurant_trend (committed c1) = restaurant_trend (committed c0) /\
  (empty df = false ->
   forall r, In r (rows df) ->
   exists stored,
     In stored (restaurant_location (committed c1)) /\
     same_key (field "store_no" stored)
              (field "store_no" (combine (columns df) r)) = true).
Proof.
  unfold upsert_locations. intros Run Hpc.
  destruct (empty df) eqn:Ee.
  - injection Run as <- _. split; [exact Hpc |]. split; [reflexivity |].
    discriminate.
  - destruct (has_column "store_no" df) eqn:Eh; cbn [negb] in Run;
      [| discriminate Run].
    unfold lbind, request, or_rollback in Run.
    destruct (faults c0) as [| [] rest]; try discriminate Run;
      cbv [get_pending set_pending commit lret] in Run;
      cbn [pending committed faults is_open] in Run;
      injection Run as <- _; cbn [pending committed restaurant_trend
                                   restaurant_location];
      (split; [reflexivity |]); (split; [rewrite Hpc; reflexivity |]);
      intros _ r Hr; apply upsert_rows_stores;
      try exact Hr;
      intro Hin; apply filter_In in Hin as [_ Hin];
      cbn in Hin; discriminate Hin.
Qed.

Lemma find_column_nonempty (c : string) (df : DataFrame) (col : list cell)
  (v : cell) :
  find_column c df = Some col -> In v col -> empty df = false.
Proof.
  unfold find_column, empty, len. intros H Hv.
  destruct (columns df) as [| c0 cols]; [discriminate H |].
  destruct (index_of c (c0 :: cols)); [| discriminate H].
  injection H as <-.
  destruct (rows df); [contradiction | reflexivity].
Qed.

Lemma distinct_keys_filter (p : cell -> bool) (l : list cell) :
  distinct_keys l -> distinct_keys (filter p l).
Proof.
  induction l as [| v l IH]; cbn; [tauto |].
  intros [Hv Hl]. destruct (p v); cbn.
  - split; [| exact (IH Hl)].
    intros w Hw. apply Hv. apply filter_In in Hw. tauto.
  - exact (IH Hl).
Qed.

(** What the verification query finds: a fetched value is the key of a
    stored location and equals, in SQL, one of the values asked for. *)
Lemma select_store_no_in_spec (params : list cell) (db : database) (k : cell) :
  In k (select_store_no_in params db) <->
  (exists r, In r (restaurant_location db) /\ field "store_no" r = k) /\
  (exists p, In p params /\ sql_eq k p = true).
Proof.
  unfold select_store_no_in. rewrite filter_In, in_map_iff, existsb_exists.
  split.
  - intros [(r & E & Hr) Hp]. split; [| exact Hp].
    exists r. split; [exact Hr | exact E].
  - intros [(r & Hr & E) Hp]. split; [| exact Hp].
    exists r. split; [exact E | exact Hr].
Qed.

(** The verification, when the store answers: valid exactly when nothing is
    missing, and the missing values are the distinct store numbers of the
    trend table that the membership test does not find among those
    fetched. *)
Lemma verify_foreign_keys_answered (trend_df : DataFrame) (c : connection)
  (store_nos : list cell) (v : cell) :
  find_column "store_no" trend_df = Some store_nos ->
  In v store_nos ->
  snd (request c) = Ok false ->
  let missing :=
    filter (fun sn => negb (py_in sn (select_store_no_in (unique store_nos)
                                                         (pending c))))
           (unique store_nos) in
  verify_foreign_keys trend_df c
  = (fst (request c),
     Ok (match missing with [] => true | _ :: _ => false end,
         missing)) /\
  committed (fst (request c)) = committed c /\
  pending (fst (request c)) = pending c.
Proof.
  intros Ecol Hv Hreq missing. unfold verify_foreign_keys.
  rewrite (@find_column_nonempty _ _ _ _ Ecol Hv).
  unfold column. rewrite Ecol. unfold lbind.
  unfold request in *.
  destruct (faults c) as [| b rest]; cbn [fst snd] in *.
  - cbv [get_pending lret]. fold missing.
    destruct missing; repeat split; reflexivity.
  - injection Hreq as ->. cbv [get_pending lret]. cbn [pending].
    fold missing. destruct missing; repeat split; reflexivity.
Qed.

Lemma missing_spec (store_nos : list cell) (db : database) :
  let missing :=
    filter (fun sn => negb (py_in sn (select_store_no_in (unique store_nos) db)))
           (unique store_nos) in
  (forall v, In v store_nos -> no_location v db -> key_in v missing) /\
  (forall k, In k missing ->
             In k store_nos /\ (no_location k db \/ isna k = true)) /\
  distinct_keys missing.
Proof.
  intro missing. repeat split.
  - intros v Hv Hno.
    destruct (unique_covers _ _ Hv) as (w & Hw & Hvw).
    exists w. split; [| exact Hvw].
    apply filter_In. split; [exact Hw |].
    apply negb_true_iff. apply not_true_is_false. intro Hin.
    unfold py_in in Hin. apply existsb_exists in Hin as (k & Hk & Hwk).
    apply andb_true_iff in Hwk as [Hwk _].
    apply select_store_no_in_spec in Hk as [(r & Hr & <-) (p & _ & Hp)].
    apply sql_eq_true in Hp as (Hkn & _ & _).
    specialize (Hno r Hr).
    assert (Hkv : same_key (field "store_no" r) v = true).
    { rewrite same_key_sym. apply (same_key_trans _ _ _ Hvw Hwk). }
    unfold sql_eq in Hno. rewrite Hkn, Hkv in Hno. cbn in Hno.
    rewrite andb_true_r in Hno. apply negb_false_iff in Hno.
    destruct v; try discriminate Hno.
    unfold same_key in Hkv. apply key_eqb_eq in Hkv.
    apply cell_key_none in Hkv. rewrite Hkv in Hkn. discriminate Hkn.
  - apply unique_In. apply filter_In in H. tauto.
  - apply filter_In in H as [Hk Hnot].
    apply negb_true_iff in Hnot.
    destruct (forallb (fun r => negb (sql_eq (field "store_no" r) k))
                      (restaurant_location db)) eqn:Ef.
    + left. intros r Hr. rewrite forallb_forall in Ef.
      apply negb_true_iff. exact (Ef r Hr).
    + right.
      assert (exists r, In r (restaurant_location db)
                        /\ sql_eq (field "store_no" r) k = true)
        as (r & Hr & Heq).
      { clear - Ef. induction (restaurant_location db) as [| r l IH];
          cbn in Ef; [discriminate Ef |].
        destruct (sql_eq (field "store_no" r) k) eqn:E.
        - exists r. split; [left; reflexivity | exact E].
        - cbn in Ef. destruct (IH Ef) as (r' & Hr' & E').
          exists r'. split; [right; exact Hr' | exact E']. }
      assert (Hfetched : In (field "store_no" r)
                            (select_store_no_in (unique store_nos) db)).
      { apply select_store_no_in_spec. split.
        - exists r. split; [exact Hr | reflexivity].
        - exists k. split; [exact Hk | exact Heq]. }
      unfold py_in in Hnot.
      assert (Hone : same_key k (field "store_no" r)
                     && negb (key_eqb (cell_key k) KNan) = false).
      { destruct (same_key k (field "store_no" r)
                  && negb (key_eqb (cell_key k) KNan)) eqn:E; [| reflexivity].
        rewrite <- Hnot. symmetry. apply existsb_exists.
        exists (field "store_no" r). split; [exact Hfetched | exact E]. }
      apply sql_eq_true in Heq as (_ & _ & Hsame).
      rewrite same_key_sym in Hsame. rewrite Hsame in Hone. cbn in Hone.
      apply negb_false_iff in Hone. apply key_eqb_eq in Hone.
      exact (cell_key_nan _ Hone).
  - apply distinct_keys_filter. apply unique_distinct.
Qed.

(** C1.  Take a run in which the loader connects and the location upsert
    returns, and a trend table with a store_no value that no stored location
    has when the verification query is answered.  Then the verification
    returns valid = false with the missing store numbers (the distinct
    store_no values of the trend table that the store does not hold, the
    given one among them); the run ends with an error that names how many
    are missing; the trend table of the store is what it was before the run;
    and what the location upsert committed stays committed, with a record
    for every row of a non-empty location table. *)
Theorem missing_location_aborts_trend_load :
  forall (location_df trend_df : DataFrame)
         (connection_string database_url : option string)
         (server c0 c1 : connection) (n : Z * Z)
         (store_nos : list cell) (v : cell),
    is_ok (init connection_string database_url) = true ->
    connect server = (c0, Ok tt) ->
    upsert_locations location_df c0 = (c1, Ok n) ->
    find_column "store_no" trend_df = Some store_nos ->
    In v store_nos ->
    no_location v (pending c1) ->
    snd (request c1) = Ok false ->
    exists (missing : list cell) (c2 final : connection),
      verify_foreign_keys trend_df c1 = (c2, Ok (false, missing)) /\
      key_in v missing /\
      (forall k, In k missing ->
                 In k store_nos
                 /\ (no_location k (pending c1) \/ isna k = true)) /\
      distinct_keys missing /\
      load_to_database location_df trend_df connection_string database_url
                       server
      = (final,
         Raise (ValueError
                  ("Cannot load trends: " +++ str_of_nat (List.length missing)
                   +++ " store_nos not found in location table"))) /\
      restaurant_trend (committed final) = restaurant_trend (committed server) /\
      restaurant_trend (pending final) = restaurant_trend (committed server) /\
      committed final = committed c1 /\
      is_open final = false /\
      (empty location_df = false ->
       forall r, In r (rows location_df) ->
       exists stored,
         In stored (restaurant_location (committed final)) /\
         same_key (field "store_no" stored)
                  (field "store_no" (combine (columns location_df) r))
         = true).
Proof.
  intros location_df trend_df cs url server c0 c1 n store_nos v
         Hinit Hconn Hup Hcol Hv Hno Hreq.
  destruct (connect_ok _ Hconn) as [Hc0 Hp0].
  destruct (upsert_locations_ok _ _ Hup) as (Hpc1 & Htrend1 & Hstored);
    [congruence |].
  destruct (@verify_foreign_keys_answered trend_df c1 store_nos v Hcol Hv Hreq)
    as (Hverify & Hc2 & Hp2).
  destruct (missing_spec store_nos (pending c1)) as (Hin & Hall & Hdist).
  set (missing := filter _ (unique store_nos)) in *.
  destruct (Hin v Hv Hno) as (w & Hw & Hvw).
  destruct missing as [| m0 rest] eqn:Em; [contradiction |].
  rewrite <- Em in *.
  exists missing, (fst (request c1)), (close (rollback (fst (request c1)))).
  split; [exact Hverify |].
  split; [exists w; split; assumption |].
  split; [exact Hall |].
  split; [exact Hdist |].
  split.
  { unfold load_to_database, with_loader.
    destruct (init cs url); [| discriminate Hinit].
    rewrite Hconn. unfold lbind at 1. rewrite Hup.
    unfold lbind at 1. rewrite Hverify. cbn [negb]. reflexivity. }
  cbn [close rollback committed pending is_open].
  rewrite Hc2. rewrite Htrend1, Hc0.
  repeat split; try reflexivity.
  intros Hne r Hr. exact (Hstored Hne r Hr).
Qed.

Example verification_reports_missing_C :
  snd (verify_foreign_keys Samples.three_trends Samples.locations_loaded)
  = Ok (false, [CStr "C"]).
Proof. vm_compute. reflexivity. Qed.

Lemma missing_location_aborts_trend_load_witness :
  In (CStr "C") [CStr "A"; CStr "B"; CStr "C"] /\
  no_location (CStr "C") (pending Samples.locations_loaded) /\
  exists final,
    load_to_database Samples.two_locations Samples.three_trends
                     (Some "postgresql://etl@db/restaurants") None
                     Samples.empty_store
    = (final,
       Raise (ValueError
                "Cannot load trends: 1 store_nos not found in location table"))
    /\ restaurant_trend (committed final) = []
    /\ List.length (restaurant_location (committed final)) = 2%nat.
Proof.
  assert (Hin : In (CStr "C") [CStr "A"; CStr "B"; CStr "C"])
    by (right; right; left; reflexivity).
  assert (Hno : no_location (CStr "C") (pending Samples.locations_loaded)).
  { intros r Hr. vm_compute in Hr.
    destruct Hr as [<- | [<- | []]]; reflexivity. }
  split; [exact Hin |]. split; [exact Hno |].
  destruct (@missing_location_aborts_trend_load
              Samples.two_locations Samples.three_trends
              (Some "postgresql://etl@db/restaurants") None
              Samples.empty_store Samples.connected
              Samples.locations_loaded (2, 0)
              [CStr "A"; CStr "B"; CStr "C"] (CStr "C")
              eq_refl eq_refl eq_refl eq_refl Hin Hno eq_refl)
    as (missing & c2 & final & Hverify & _ & _ & _ & Hload & Htrend & _
        & Hcommitted & _).
  vm_compute in Hverify. injection Hverify as _ <-.
  exists final. split; [exact Hload |].
  split; [exact Htrend |].
  rewrite Hcommitted. reflexivity.
Defined.

End LoaderFacts.

(* ------------------------------------------------------------------------- *)
(** * Properties of the column helpers *)

Module ColumnFacts.
Import Py Frame Spec FrameFacts Parsing.









Section Assign.
Variables (c : string) (values : list cell) (df : DataFrame) (i : nat).
Hypothesis has_c : index_of c (columns df) = Some i.
Hypothesis aligned : List.length values = len df.







End Assign.


(** A listed column that the table lacks is never an error: when the table
    has none of the listed columns, the loop returns the table as it is. *)
Lemma coerce_columns_all_absent (f : cell -> result cell) (df : DataFrame)
  (cols : list string) :
  (forall c, In c cols -> ~ In c (columns df)) ->
  coerce_columns f df cols = Ok df.
Proof.
  induction cols as [| c cols IH]; intro H; cbn; [reflexivity |].
  rewrite (proj2 (find_column_None c df) (H c (or_introl eq_refl))).
  apply IH. intros c' Hc'. apply H. right. exact Hc'.
Qed.

(** The numeric coercion raises only on an integer too large for a float. *)
Lemma coerce_to_numeric_returns (value : cell) (allow_null : bool) :
  (forall z, value = CInt z -> is_ok (float_of_int z) = true) ->
  is_ok (coerce_to_numeric value allow_null) = true.
Proof.
  intro Hz. unfold coerce_to_numeric.
  destruct (isna value || eq_empty_str value || is_none value); [reflexivity |].
  destruct value as [| s | z | x]; cbn [py_float bind].
  - reflexivity.
  - unfold float_of_string.
    destruct (if existsb _ _ then _ else _) as [chars |]; [| reflexivity].
    destruct (read_sign _) as [neg body].
    destruct (_ || _); [reflexivity |].
    destruct (String.eqb _ _); [reflexivity |].
    destruct (read_decimal body) as [[n k] |]; reflexivity.
  - specialize (Hz z eq_refl).
    destruct (float_of_int z) as [x | e]; [reflexivity | discriminate Hz].
  - reflexivity.
Qed.




(** C8.  The integer column helper raises on a table whose listed column
    holds the text inf: the element coercion raises OverflowError there and
    the helper lets it through, so no table is returned. *)
Theorem coerce_integer_columns_raises_on_inf :
  coerce_integer_columns
    {| columns := ["store_no"; "yr_built"];
       rows := [[CStr "1001"; CStr "1987"]; [CStr "1002"; CStr "inf"]] |}
    ["yr_built"]
  = Raise (OverflowError "cannot convert float infinity to integer").
Proof. vm_compute. reflexivity. Qed.

Example coerce_integer_columns_on_finite_values :
  coerce_integer_columns
    {| columns := ["store_no"; "yr_built"];
       rows := [[CStr "1001"; CStr "1987.0"]; [CStr "1002"; CStr ""]] |}
    ["yr_built"; "year"]
  = Ok {| columns := ["store_no"; "yr_built"];
          rows := [[CStr "1001"; CInt 1987]; [CStr "1002"; CNone]] |}.
Proof. vm_compute. reflexivity. Qed.

End ColumnFacts.
